(** * VesselTreeGenerator: the Slicer module of SEEGPlanner

    A shallow embedding of [VesselTreeGenerator.py]: the three stages of
    [VesselTreeGeneratorLogic] (median filter, sigmoid filter, signed Maurer
    distance) and the handlers of [VesselTreeGeneratorWidget] that drive them
    (noise-reduction buttons, Apply, threshold preview, "apply threshold and
    show 3D", Maurer distance).

    The module is glue code around 3D Slicer and SimpleITK.  What it owns is
    the order of the calls, their arguments, the guards in front of them and
    the nodes it creates and removes in the MRML scene; this is what the
    embedding keeps.  What the libraries compute is kept as a term:

    - an image is either raw voxel data or the application of a configured
      filter to an image ([Execute f img]); no library arithmetic is
      re-implemented here;
    - calls whose effect lives in the host application (dialogs, slice
      viewers, the segment editor and its effects, display nodes) are
      appended, in order and with their arguments, to a call log.

    Python exceptions are outcomes of a state-and-exception monad in which,
    as in Python, the mutations made before a [raise] stay in place.
    Console output, log records and time stamps ([print], [logging.info],
    [time.time]) are not modelled.  Library calls are taken to return. *)

From Stdlib Require Import ZArith QArith String.
From stdpp Require Import base option list gmap strings.

Local Open Scope string_scope.
Local Open Scope list_scope.

(** ** Python values *)

(** Identity of an MRML node object; a Python reference to a node is its
    identity, [None] is Python's [None]. *)
Definition NodeId := nat.

(** The exception classes the module raises. *)
Inductive exn : Type :=
| ValueError (msg : string)
| TypeError (msg : string)
| RuntimeError (msg : string)
| MRMLNodeNotFoundException (msg : string).

(** [str(e)] *)
Definition str (e : exn) : string :=
  match e with
  | ValueError msg | TypeError msg | RuntimeError msg
  | MRMLNodeNotFoundException msg => msg
  end.

(** A string built by the module: a literal, or a float rendered by the
    format specification [:g]. *)
Inductive pystr : Type :=
| Literal (s : string)
| FormatG (x : Q).

(** The line feed of the f-strings. *)
Definition LF : string := String (Ascii.ascii_of_nat 10) EmptyString.

(** Truth value of an optional string: [None] and [""] are false. *)
Definition truthy (s : option string) : bool :=
  match s with
  | Some "" | None => false
  | Some _ => true
  end.

(** ** SimpleITK *)

Module sitk.

Record MedianImageFilter : Type := { Radius : Z }.

Record SigmoidImageFilter : Type :=
  { Alpha : Q; Beta : Q; OutputMaximum : Q; OutputMinimum : Q }.

Record SignedMaurerDistanceMapImageFilter : Type :=
  { InsideIsPositive : bool;
    SquaredDistance : bool;
    UseImageSpacing : bool;
    BackgroundValue : Q }.

(** The filter objects as their constructors return them. *)
Definition MedianImageFilter_new : MedianImageFilter := {| Radius := 1 |}.

Definition SigmoidImageFilter_new : SigmoidImageFilter :=
  {| Alpha := 1; Beta := 0; OutputMaximum := 255; OutputMinimum := 0 |}.

Definition SignedMaurerDistanceMapImageFilter_new
  : SignedMaurerDistanceMapImageFilter :=
  {| InsideIsPositive := false; SquaredDistance := true;
     UseImageSpacing := false; BackgroundValue := 0 |}.

Definition SetRadius (r : Z) (_ : MedianImageFilter) : MedianImageFilter :=
  {| Radius := r |}.

Definition SetAlpha (a : Q) (f : SigmoidImageFilter) : SigmoidImageFilter :=
  {| Alpha := a; Beta := Beta f;
     OutputMaximum := OutputMaximum f; OutputMinimum := OutputMinimum f |}.

Definition SetBeta (b : Q) (f : SigmoidImageFilter) : SigmoidImageFilter :=
  {| Alpha := Alpha f; Beta := b;
     OutputMaximum := OutputMaximum f; OutputMinimum := OutputMinimum f |}.

Definition SetOutputMaximum (m : Q) (f : SigmoidImageFilter)
  : SigmoidImageFilter :=
  {| Alpha := Alpha f; Beta := Beta f;
     OutputMaximum := m; OutputMinimum := OutputMinimum f |}.

Definition SetOutputMinimum (m : Q) (f : SigmoidImageFilter)
  : SigmoidImageFilter :=
  {| Alpha := Alpha f; Beta := Beta f;
     OutputMaximum := OutputMaximum f; OutputMinimum := m |}.

Definition SetUseImageSpacing (b : bool)
  (f : SignedMaurerDistanceMapImageFilter)
  : SignedMaurerDistanceMapImageFilter :=
  {| InsideIsPositive := InsideIsPositive f;
     SquaredDistance := SquaredDistance f;
     UseImageSpacing := b; BackgroundValue := BackgroundValue f |}.

Definition SetSquaredDistance (b : bool)
  (f : SignedMaurerDistanceMapImageFilter)
  : SignedMaurerDistanceMapImageFilter :=
  {| InsideIsPositive := InsideIsPositive f;
     SquaredDistance := b;
     UseImageSpacing := UseImageSpacing f;
     BackgroundValue := BackgroundValue f |}.

Definition SetBackgroundValue (v : Q)
  (f : SignedMaurerDistanceMapImageFilter)
  : SignedMaurerDistanceMapImageFilter :=
  {| InsideIsPositive := InsideIsPositive f;
     SquaredDistance := SquaredDistance f;
     UseImageSpacing := UseImageSpacing f; BackgroundValue := v |}.

Definition SetInsideIsPositive (b : bool)
  (f : SignedMaurerDistanceMapImageFilter)
  : SignedMaurerDistanceMapImageFilter :=
  {| InsideIsPositive := b;
     SquaredDistance := SquaredDistance f;
     UseImageSpacing := UseImageSpacing f;
     BackgroundValue := BackgroundValue f |}.

(** A configured filter, ready for [Execute]. *)
Inductive Filter : Type :=
| Median (f : MedianImageFilter)
| Sigmoid (f : SigmoidImageFilter)
| SignedMaurerDistanceMap (f : SignedMaurerDistanceMapImageFilter).

Inductive PixelID : Type := sitkUInt8.

(** Volume data: what a node holds and what SimpleITK passes around. *)
Inductive Image : Type :=
| NoImageData                       (* a node that was never written *)
| Voxels (data : list Z)            (* raw voxel values *)
| Execute (f : Filter) (input : Image)
| Greater (img : Image) (c : Z)     (* [img > c] *)
| Cast (img : Image) (t : PixelID)
| ExportedLabelmap (segmentation : NodeId) (segmentIDs : list string)
    (reference : NodeId).

End sitk.


(** ** The host application *)

(** The node classes the module meets. *)
Inductive NodeClass : Type :=
| vtkMRMLScalarVolumeNode
| vtkMRMLLabelMapVolumeNode
| vtkMRMLSegmentationNode
| vtkMRMLColorTableNode.

Definition GetClassName (c : NodeClass) : string :=
  match c with
  | vtkMRMLScalarVolumeNode => "vtkMRMLScalarVolumeNode"
  | vtkMRMLLabelMapVolumeNode => "vtkMRMLLabelMapVolumeNode"
  | vtkMRMLSegmentationNode => "vtkMRMLSegmentationNode"
  | vtkMRMLColorTableNode => "vtkMRMLColorTableNode"
  end.

(** The class and its base classes; a labelmap volume is a scalar volume. *)
Definition class_chain (c : NodeClass) : list string :=
  match c with
  | vtkMRMLScalarVolumeNode =>
      ["vtkMRMLScalarVolumeNode"; "vtkMRMLVolumeNode"; "vtkMRMLNode"]
  | vtkMRMLLabelMapVolumeNode =>
      ["vtkMRMLLabelMapVolumeNode"; "vtkMRMLScalarVolumeNode";
       "vtkMRMLVolumeNode"; "vtkMRMLNode"]
  | vtkMRMLSegmentationNode => ["vtkMRMLSegmentationNode"; "vtkMRMLNode"]
  | vtkMRMLColorTableNode =>
      ["vtkMRMLColorTableNode"; "vtkMRMLColorNode"; "vtkMRMLNode"]
  end.

Definition IsA (c : NodeClass) (className : string) : bool :=
  bool_decide (className ∈ class_chain c).

Record Node : Type :=
  { GetClass : NodeClass;
    GetName : string;
    GetImageData : sitk.Image;
    GetSegmentIDs : list string }.

Definition new_node (c : NodeClass) (name : string) : Node :=
  {| GetClass := c; GetName := name;
     GetImageData := sitk.NoImageData; GetSegmentIDs := [] |}.

Definition SetImageData (img : sitk.Image) (n : Node) : Node :=
  {| GetClass := GetClass n; GetName := GetName n;
     GetImageData := img; GetSegmentIDs := GetSegmentIDs n |}.

(** What [infoDisplay] shows after a successful run of the 3D step. *)
Record Summary : Type :=
  { sum_medianRadius : option Z;
    sum_alpha : Q; sum_beta : Q;
    sum_thMin : Q; sum_thMax : Q }.

(** Calls into the host application and into SimpleITK's [Execute], with
    their arguments.  An optional argument that is not passed is [None]. *)
Module Call.

Inductive t : Type :=
(* slicer.util, slicer.app *)
| errorDisplay (text : string)
| infoDisplay (message : Summary)
| setSliceViewerLayers (background label : option NodeId) (fit : bool)
| setOverrideCursor
| restoreOverrideCursor
| processEvents
| resetCamera
(* SimpleITK *)
| sitk_Execute (f : sitk.Filter) (input : sitk.Image)
(* qMRMLSegmentEditorWidget and its effects *)
| setSegmentationNode (n : NodeId)
| setSourceVolumeNode (n : NodeId)
| setCurrentSegmentID (segmentID : string)
| setActiveEffectByName (name : string)
| setActiveEffect_None
| effect_setParameter (effect key : string) (value : pystr)
| effect_onApply (effect : string)
(* segmentations logic, segmentation node and its display node *)
| ExportSegmentsToLabelmapNode (segmentation : NodeId)
    (segmentIDs : list string) (labelmap reference : NodeId)
| CreateDefaultDisplayNodes (n : NodeId)
| CreateClosedSurfaceRepresentation (n : NodeId)
| SetVisibility3D (n : NodeId) (visible : bool)
| SetPreferredDisplayRepresentationName3D (n : NodeId) (name : string)
| SetDisplayVisibility (n : NodeId) (visible : Z)
(* volume display node *)
| SetAndObserveColorNodeID (n color : NodeId)
| DisplayNodeModified (n : NodeId)
| Modified (n : NodeId).

End Call.

(* Records with primitive projections: a world is equal to the record of
   its fields. *)
Set Primitive Projections.

Record Slicer : Type :=
  { nodes : gmap NodeId Node;         (* the node objects *)
    mrmlScene : list NodeId;          (* the nodes of the scene, in order *)
    registeredEffects : list string;  (* effects the segment editor offers *)
    activeEffect : option string;
    calls : list Call.t }.

(** The widgets of the .ui file the handlers read. *)
Record UI : Type :=
  { inputSelector : option NodeId;
    outputSelector : option NodeId;
    inputSelectorSegmentation : option NodeId;
    SliderWidgetAlpha : Q;
    SliderWidgetBeta : Q }.

(** The attributes of [VesselTreeGeneratorWidget]; [saveIntermediateVolume]
    is the field of its parameter node. *)
Record Widget : Type :=
  { _medianRadius : option Z;
    _segmentationNode3D : option NodeId;
    _segmentId3D : option string;
    _lastThresholdMin : option Q;
    _lastThresholdMax : option Q;
    saveIntermediateVolume : bool;
    ui : UI }.

Record World : Type := { self : Widget; app : Slicer }.

Unset Primitive Projections.

Definition set_nodes (m : gmap NodeId Node) (s : Slicer) : Slicer :=
  {| nodes := m; mrmlScene := mrmlScene s;
     registeredEffects := registeredEffects s;
     activeEffect := activeEffect s; calls := calls s |}.

Definition set_mrmlScene (l : list NodeId) (s : Slicer) : Slicer :=
  {| nodes := nodes s; mrmlScene := l;
     registeredEffects := registeredEffects s;
     activeEffect := activeEffect s; calls := calls s |}.

Definition set_activeEffect (e : option string) (s : Slicer) : Slicer :=
  {| nodes := nodes s; mrmlScene := mrmlScene s;
     registeredEffects := registeredEffects s;
     activeEffect := e; calls := calls s |}.

Definition set_calls (l : list Call.t) (s : Slicer) : Slicer :=
  {| nodes := nodes s; mrmlScene := mrmlScene s;
     registeredEffects := registeredEffects s;
     activeEffect := activeEffect s; calls := l |}.

Definition set_medianRadius (r : option Z) (w : Widget) : Widget :=
  {| _medianRadius := r;
     _segmentationNode3D := _segmentationNode3D w;
     _segmentId3D := _segmentId3D w;
     _lastThresholdMin := _lastThresholdMin w;
     _lastThresholdMax := _lastThresholdMax w;
     saveIntermediateVolume := saveIntermediateVolume w; ui := ui w |}.

Definition set_lastThreshold (lo hi : option Q) (w : Widget) : Widget :=
  {| _medianRadius := _medianRadius w;
     _segmentationNode3D := _segmentationNode3D w;
     _segmentId3D := _segmentId3D w;
     _lastThresholdMin := lo;
     _lastThresholdMax := hi;
     saveIntermediateVolume := saveIntermediateVolume w; ui := ui w |}.

(** ** The monad of the handlers: state and exceptions *)

Inductive outcome (A : Type) : Type :=
| Return (a : A)
| Raise (e : exn).
Arguments Return {A} a.
Arguments Raise {A} e.

Definition M (A : Type) : Type := World → outcome A * World.

#[global] Instance M_ret : MRet M := λ A a w, (Return a, w).

#[global] Instance M_bind : MBind M := λ A B f m w,
  match m w with
  | (Return a, w') => f a w'
  | (Raise e, w') => (Raise e, w')
  end.

Definition raise {A : Type} (e : exn) : M A := λ w, (Raise e, w).

(** [try: c except Exception as e: h e] *)
Definition try_except {A : Type} (c : M A) (h : exn → M A) : M A := λ w,
  match c w with
  | (Return a, w') => (Return a, w')
  | (Raise e, w') => h e w'
  end.

Definition gets {A : Type} (f : World → A) : M A := λ w, (Return (f w), w).

Definition modify_self (f : Widget → Widget) : M unit := λ w,
  (Return tt, {| self := f (self w); app := app w |}).

Definition modify_app (f : Slicer → Slicer) : M unit := λ w,
  (Return tt, {| self := self w; app := f (app w) |}).

Definition pass : M unit := mret tt.

(** The world a handler leaves, and how it ended. *)
Definition world_after {A : Type} (c : M A) (w : World) : World := (c w).2.
Definition outcome_of {A : Type} (c : M A) (w : World) : outcome A := (c w).1.

Definition log (c : Call.t) : M unit :=
  modify_app (λ s, set_calls (calls s ++ [c]) s).

(** The node object behind a reference. *)
Definition node_at (w : World) (n : NodeId) : option Node :=
  nodes (app w) !! n.

(** The volume data a node holds. *)
Definition image_at (w : World) (n : NodeId) : sitk.Image :=
  default sitk.NoImageData (GetImageData <$> node_at w n).

(** The first node of the scene with a given name. *)
Definition first_named (name : string) (w : World) : option NodeId :=
  List.find (λ n, bool_decide (GetName <$> node_at w n = Some name))
    (mrmlScene (app w)).

(** Every node of the scene is a node object. *)
Definition scene_in_heap (w : World) : Prop :=
  ∀ n, n ∈ mrmlScene (app w) → is_Some (node_at w n).

(** ** slicer.mrmlScene, slicer.util, sitkUtils *)

Module slicer.

(** [slicer.mrmlScene.AddNewNodeByClass(className, name)]: a new node object
    of that name, appended to the scene.  (The handlers ask for the name
    "intermediate_median" only when no node of the scene has it.) *)
Definition AddNewNodeByClass (c : NodeClass) (name : string) : M NodeId :=
  λ w,
    let n : NodeId := fresh (dom (nodes (app w))) in
    (Return n,
     {| self := self w;
        app := set_mrmlScene (mrmlScene (app w) ++ [n])
                 (set_nodes (<[n := new_node c name]> (nodes (app w)))
                    (app w)) |}).

(** [slicer.mrmlScene.GetFirstNodeByName(name)] *)
Definition GetFirstNodeByName (name : string) : M (option NodeId) :=
  gets (first_named name).

(** [slicer.mrmlScene.RemoveNode(node)]: the node leaves the scene. *)
Definition RemoveNode (n : NodeId) : M unit :=
  modify_app (λ s, set_mrmlScene (filter (λ m, m ≠ n) (mrmlScene s)) s).

(** [slicer.util.getNode(name)] *)
Definition getNode (name : string) : M NodeId :=
  found ← GetFirstNodeByName name;
  match found with
  | Some n => mret n
  | None =>
      raise (MRMLNodeNotFoundException
        ("could not find nodes in the scene by name or id '" +:+ name +:+ "'"))
  end.

Definition setSliceViewerLayers (background label : option NodeId)
  (fit : bool) : M unit :=
  log (Call.setSliceViewerLayers background label fit).

Definition errorDisplay (text : string) : M unit :=
  log (Call.errorDisplay text).

(** [with slicer.util.tryWithErrorDisplay(message, waitCursor=True):] shows
    the exception of its body in a dialog and raises it again. *)
Definition tryWithErrorDisplay {A : Type} (message : string) (body : M A)
  : M A :=
  log Call.setOverrideCursor;;
  try_except
    (a ← body; log Call.restoreOverrideCursor;; mret a)
    (λ e,
       log Call.restoreOverrideCursor;;
       errorDisplay (message +:+ LF +:+ LF +:+ str e);;
       raise e).

End slicer.

Module sitkUtils.

Definition PullVolumeFromSlicer (n : NodeId) : M sitk.Image :=
  gets (λ w, image_at w n).

Definition PushVolumeToSlicer (img : sitk.Image) (targetNode : NodeId)
  : M unit :=
  modify_app (λ s, set_nodes (alter (SetImageData img) targetNode (nodes s)) s).

End sitkUtils.

(** [filter.Execute(image)] *)
Definition Execute (f : sitk.Filter) (img : sitk.Image) : M sitk.Image :=
  log (Call.sitk_Execute f img);;
  mret (sitk.Execute f img).

(** ** VesselTreeGeneratorLogic *)

Module VesselTreeGeneratorLogic.

Definition applyMedianFilter (inputVolume outputVolume : option NodeId)
  (radius : Z) (showResults : bool) : M unit :=
  match inputVolume, outputVolume with
  | Some i, Some o =>
      inputImage ← sitkUtils.PullVolumeFromSlicer i;
      let medianFilter := sitk.SetRadius radius sitk.MedianImageFilter_new in
      outputImage ← Execute (sitk.Median medianFilter) inputImage;
      sitkUtils.PushVolumeToSlicer outputImage o;;
      if showResults then slicer.setSliceViewerLayers (Some o) None true
      else pass
  | _, _ => raise (ValueError "Input or output volume is invalid")
  end.

Definition applySigmoidFilter (inputVolume outputVolume : option NodeId)
  (alpha beta outputMinimum outputMaximum : Q) (showResults : bool)
  : M unit :=
  match inputVolume, outputVolume with
  | Some i, Some o =>
      inputImage ← sitkUtils.PullVolumeFromSlicer i;
      let sigmoidFilter :=
        sitk.SetOutputMinimum outputMinimum
          (sitk.SetOutputMaximum outputMaximum
             (sitk.SetBeta beta
                (sitk.SetAlpha alpha sitk.SigmoidImageFilter_new))) in
      outputImage ← Execute (sitk.Sigmoid sigmoidFilter) inputImage;
      sitkUtils.PushVolumeToSlicer outputImage o;;
      if showResults then slicer.setSliceViewerLayers (Some o) None true
      else pass
  | _, _ => raise (ValueError "Input or output volume is invalid")
  end.

(** The defaults of [applySigmoidFilter]'s keyword arguments. *)
Definition outputMinimum_default : Q := 0.
Definition outputMaximum_default : Q := 1.

Definition MaurerDistance (inputVolume outputVolume : option NodeId)
  (showResults : bool) : M unit :=
  match inputVolume, outputVolume with
  | Some i, Some o =>
      cls ← gets (λ w, GetClass <$> node_at w i);
      if negb (from_option (λ c, IsA c "vtkMRMLLabelMapVolumeNode") false cls)
      then
        raise (TypeError
          ("Input volume must be a binary labelmap. Got " +:+
           from_option GetClassName "" cls +:+ "."))
      else
        inputImage ← sitkUtils.PullVolumeFromSlicer i;
        let maurerFilter :=
          sitk.SetInsideIsPositive false
            (sitk.SetBackgroundValue 0
               (sitk.SetSquaredDistance false
                  (sitk.SetUseImageSpacing true
                     sitk.SignedMaurerDistanceMapImageFilter_new))) in
        outputImage ←
          Execute (sitk.SignedMaurerDistanceMap maurerFilter) inputImage;
        sitkUtils.PushVolumeToSlicer outputImage o;;
        if showResults then slicer.setSliceViewerLayers (Some o) None true
        else pass
  | _, _ => raise (ValueError "Input or output volume is invalid")
  end.

End VesselTreeGeneratorLogic.

(** ** The hidden segment editor widget and its effects *)

Module segmentEditorWidget3D.

Definition setSegmentationNode (n : NodeId) : M unit :=
  log (Call.setSegmentationNode n).

Definition setSourceVolumeNode (n : NodeId) : M unit :=
  log (Call.setSourceVolumeNode n).

Definition setCurrentSegmentID (segmentID : string) : M unit :=
  log (Call.setCurrentSegmentID segmentID).

(** The effect of that name becomes active if the editor offers it;
    otherwise no effect is active. *)
Definition setActiveEffectByName (name : string) : M unit :=
  log (Call.setActiveEffectByName name);;
  modify_app (λ s,
    set_activeEffect
      (if bool_decide (name ∈ registeredEffects s) then Some name else None)
      s).

Definition setActiveEffect_None : M unit :=
  log Call.setActiveEffect_None;;
  modify_app (set_activeEffect None).

Definition activeEffect : M (option string) :=
  gets (λ w, activeEffect (app w)).

Definition setParameter (effect key : string) (value : pystr) : M unit :=
  log (Call.effect_setParameter effect key value).

Definition onApply (effect : string) : M unit :=
  log (Call.effect_onApply effect).

End segmentEditorWidget3D.

(** ** VesselTreeGeneratorWidget *)

Module VesselTreeGeneratorWidget.

Import VesselTreeGeneratorLogic.

(** [__init__]: nothing chosen, nothing created, no threshold seen yet. *)
Definition init (u : UI) : Widget :=
  {| _medianRadius := None;
     _segmentationNode3D := None;
     _segmentId3D := None;
     _lastThresholdMin := None;
     _lastThresholdMax := None;
     saveIntermediateVolume := false;
     ui := u |}.

(** The segmentation node and the segment id when both are truthy:
    [not self._segmentationNode3D or not self._segmentId3D] is false. *)
Definition segment_of (w : World) : option (NodeId * string) :=
  match _segmentationNode3D (self w), _segmentId3D (self w) with
  | Some seg, Some sid => if truthy (Some sid) then Some (seg, sid) else None
  | _, _ => None
  end.

Definition onNoiseReductionLow (checked : bool) : M unit :=
  if checked then modify_self (set_medianRadius (Some 1%Z)) else pass.

Definition onNoiseReductionHigh (checked : bool) : M unit :=
  if checked then modify_self (set_medianRadius (Some 2%Z)) else pass.

(** The body of the [with] block of [onApplySettings]. *)
Definition applySettings_with : M unit :=
  inputVolume ← gets (λ w, inputSelector (ui (self w)));
  outputVolume ← gets (λ w, outputSelector (ui (self w)));
  match inputVolume, outputVolume with
  | Some i, Some o =>
      medianRadius ← gets (λ w, _medianRadius (self w));
      (* (medianResultNode, tempMedianNode) *)
      used ←
        match medianRadius with
        | Some r =>
            save ← gets (λ w, saveIntermediateVolume (self w));
            if (save : bool) then
              existingNode ← slicer.GetFirstNodeByName "intermediate_median";
              intermediateNode ←
                match existingNode with
                | Some e => mret e
                | None =>
                    slicer.AddNewNodeByClass vtkMRMLScalarVolumeNode
                      "intermediate_median"
                end;
              applyMedianFilter (Some i) (Some intermediateNode) r false;;
              mret (intermediateNode, None)
            else
              tempMedianNode ←
                slicer.AddNewNodeByClass vtkMRMLScalarVolumeNode
                  "TempMedianForSigmoid";
              applyMedianFilter (Some i) (Some tempMedianNode) r false;;
              mret (tempMedianNode, Some tempMedianNode)
        | None => mret (i, None)
        end;
      alpha ← gets (λ w, SliderWidgetAlpha (ui (self w)));
      beta ← gets (λ w, SliderWidgetBeta (ui (self w)));
      applySigmoidFilter (Some (used.1)) (Some o) alpha beta
        outputMinimum_default outputMaximum_default true;;
      slicer.setSliceViewerLayers (Some o) None true;;
      match used.2 with
      | Some tempMedianNode => slicer.RemoveNode tempMedianNode
      | None => pass
      end
  | _, _ => raise (ValueError "No volumes selected!")
  end.

Definition onApplySettings : M unit :=
  slicer.tryWithErrorDisplay "Failed to apply settings." applySettings_with.

Definition onThresholdValuesChanged (minimum maximum : Q) : M unit :=
  modify_self (set_lastThreshold (Some minimum) (Some maximum));;
  segment ← gets segment_of;
  match segment with
  | None => pass                          (* no segmentation yet *)
  | Some (seg, sid) =>
      volumeNode ← gets (λ w, outputSelector (ui (self w)));
      match volumeNode with
      | None => pass
      | Some v =>
          segmentEditorWidget3D.setSegmentationNode seg;;
          segmentEditorWidget3D.setSourceVolumeNode v;;
          segmentEditorWidget3D.setCurrentSegmentID sid;;
          segmentEditorWidget3D.setActiveEffectByName "Threshold";;
          effect ← segmentEditorWidget3D.activeEffect;
          match effect with
          | None => raise (RuntimeError "Threshold effect is not available")
          | Some effect =>
              segmentEditorWidget3D.setParameter effect "MinimumThreshold"
                (FormatG minimum);;
              segmentEditorWidget3D.setParameter effect "MaximumThreshold"
                (FormatG maximum);;
              log Call.processEvents
          end
      end
  end.

(** The body of the [try] of [onApplyThresholdShow3D]; [None] is its early
    [return], [Some] carries the values collected for the success dialog. *)
Definition applyThresholdShow3D_try : M (option Summary) :=
  lo ← gets (λ w, _lastThresholdMin (self w));
  hi ← gets (λ w, _lastThresholdMax (self w));
  match lo, hi with
  | Some thMin, Some thMax =>
      segment ← gets segment_of;
      match segment with
      | None =>
          raise (ValueError "No segmentation. Use 'Add Segmentation' first.")
      | Some (seg, sid) =>
          volumeNode ← gets (λ w, outputSelector (ui (self w)));
          match volumeNode with
          | None => raise (ValueError "Please select an Output volume.")
          | Some v =>
              segmentEditorWidget3D.setSegmentationNode seg;;
              segmentEditorWidget3D.setSourceVolumeNode v;;
              segmentEditorWidget3D.setCurrentSegmentID sid;;
              segmentEditorWidget3D.setActiveEffectByName "Threshold";;
              effect ← segmentEditorWidget3D.activeEffect;
              match effect with
              | None =>
                  raise (RuntimeError "Threshold effect is not available")
              | Some threshold =>
                  segmentEditorWidget3D.setParameter threshold
                    "MinimumThreshold" (FormatG thMin);;
                  segmentEditorWidget3D.setParameter threshold
                    "MaximumThreshold" (FormatG thMax);;
                  segmentEditorWidget3D.onApply threshold;;
                  segmentEditorWidget3D.setActiveEffectByName "Islands";;
                  effect ← segmentEditorWidget3D.activeEffect;
                  match effect with
                  | None =>
                      raise (RuntimeError "Islands effect is not available")
                  | Some islands =>
                      segmentEditorWidget3D.setParameter islands
                        "Operation" (Literal "KEEP_LARGEST_ISLAND");;
                      segmentEditorWidget3D.setParameter islands
                        "MinimumSize" (Literal "1000");;
                      segmentEditorWidget3D.onApply islands;;
                      segmentEditorWidget3D.setActiveEffect_None;;
                      log (Call.CreateDefaultDisplayNodes seg);;
                      log (Call.CreateClosedSurfaceRepresentation seg);;
                      log (Call.SetVisibility3D seg true);;
                      log (Call.SetPreferredDisplayRepresentationName3D seg
                             "Closed surface");;
                      log (Call.SetDisplayVisibility seg 1);;
                      log Call.resetCamera;;
                      medianRadius ← gets (λ w, _medianRadius (self w));
                      alpha ← gets (λ w, SliderWidgetAlpha (ui (self w)));
                      beta ← gets (λ w, SliderWidgetBeta (ui (self w)));
                      mret (Some {| sum_medianRadius := medianRadius;
                                    sum_alpha := alpha; sum_beta := beta;
                                    sum_thMin := thMin; sum_thMax := thMax |})
                  end
              end
          end
      end
  | _, _ =>
      slicer.errorDisplay "Move the threshold slider at least once.";;
      mret None
  end.

Definition onApplyThresholdShow3D : M unit :=
  collected ←
    try_except applyThresholdShow3D_try
      (λ e,
         slicer.errorDisplay
           ("Failed to apply threshold and show 3D model." +:+ LF +:+ str e);;
         mret None);
  match collected with
  | Some summary => log (Call.infoDisplay summary)
  | None => pass
  end.

(** The body of the [with] block of [onComputeMaurerDistance]. *)
Definition computeMaurerDistance_with : M unit :=
  segmentationNode ← gets (λ w, inputSelectorSegmentation (ui (self w)));
  match segmentationNode with
  | None =>
      raise (ValueError
               "Please select a Segmentation node from Step 2 first.")
  | Some seg =>
      segNode ← gets (λ w, node_at w seg);
      if negb (from_option
                 (λ n, IsA (GetClass n) "vtkMRMLSegmentationNode") false
                 segNode)
      then raise (TypeError "Input node must be a Segmentation Node.")
      else
        refVolume ← gets (λ w, outputSelector (ui (self w)));
        match refVolume with
        | None =>
            raise (ValueError
                     "Please select an Output volume from Step 1 first.")
        | Some ref =>
            let segmentIDs := from_option GetSegmentIDs [] segNode in
            if (length segmentIDs <? 1)%nat then
              raise (ValueError
                "The selected segmentation node does not contain any segments.")
            else
              (* [AddNewNodeByClass] always gives a node here, so the two
                 [if not ...Node: raise RuntimeError] never fire *)
              labelmapNode ←
                slicer.AddNewNodeByClass vtkMRMLLabelMapVolumeNode
                  "Vessels_Labelmap";
              log (Call.ExportSegmentsToLabelmapNode seg segmentIDs
                     labelmapNode ref);;
              sitkUtils.PushVolumeToSlicer
                (sitk.ExportedLabelmap seg segmentIDs ref) labelmapNode;;
              (* enforce a binary labelmap *)
              LabelMapImg ← sitkUtils.PullVolumeFromSlicer labelmapNode;
              let LabelMapBinary :=
                sitk.Cast (sitk.Greater LabelMapImg 0) sitk.sitkUInt8 in
              sitkUtils.PushVolumeToSlicer LabelMapBinary labelmapNode;;
              let outName :=
                from_option GetName "" segNode +:+ "_MaurerDistance" in
              maurerOutputNode ←
                slicer.AddNewNodeByClass vtkMRMLScalarVolumeNode outName;
              MaurerDistance (Some labelmapNode) (Some maurerOutputNode)
                true;;
              colorNde ← slicer.getNode "HotToColdRainbow";
              log (Call.SetAndObserveColorNodeID maurerOutputNode colorNde);;
              log (Call.DisplayNodeModified maurerOutputNode);;
              log (Call.Modified maurerOutputNode)
        end
  end.

Definition onComputeMaurerDistance : M unit :=
  slicer.tryWithErrorDisplay "Failed to compute Maurer Distance."
    computeMaurerDistance_with.

End VesselTreeGeneratorWidget.

(** ** Observations on a world *)

(** The filter executions of a call log, oldest first. *)
Definition executions (l : list Call.t) : list (sitk.Filter * sitk.Image) :=
  omap (λ c, match c with
             | Call.sitk_Execute f img => Some (f, img)
             | _ => None
             end) l.

Definition executed (w : World) : list (sitk.Filter * sitk.Image) :=
  executions (calls (app w)).

(** The world with further calls logged and nothing else changed. *)
Definition logged (l : list Call.t) (w : World) : World :=
  {| self := self w; app := set_calls (calls (app w) ++ l) (app w) |}.

(** The filters as the stages configure them. *)
Definition median_of (radius : Z) : sitk.Filter :=
  sitk.Median {| sitk.Radius := radius |}.

Definition sigmoid_of (alpha beta : Q) : sitk.Filter :=
  sitk.Sigmoid {| sitk.Alpha := alpha; sitk.Beta := beta;
                  sitk.OutputMaximum := 1; sitk.OutputMinimum := 0 |}.

Definition maurer : sitk.Filter :=
  sitk.SignedMaurerDistanceMap
    {| sitk.InsideIsPositive := false; sitk.SquaredDistance := false;
       sitk.UseImageSpacing := true; sitk.BackgroundValue := 0 |}.

(** What a stage does when both volumes are given: one filter execution on
    the volume of the input node, its result pushed to the output node, and
    the slice viewers updated if asked. *)
Definition stage_result (f : sitk.Filter) (i o : NodeId) (showResults : bool)
  (w : World) : World :=
  {| self := self w;
     app :=
       set_nodes
         (alter (SetImageData (sitk.Execute f (image_at w i))) o
            (nodes (app w)))
         (set_calls
            (calls (app w) ++
             Call.sitk_Execute f (image_at w i) ::
             (if showResults
              then [Call.setSliceViewerLayers (Some o) None true]
              else []))
            (app w)) |}.

(** The calls of a threshold preview that reaches the Threshold effect. *)
Definition preview_calls (seg v : NodeId) (sid : string) (lo hi : Q)
  : list Call.t :=
  [ Call.setSegmentationNode seg;
    Call.setSourceVolumeNode v;
    Call.setCurrentSegmentID sid;
    Call.setActiveEffectByName "Threshold";
    Call.effect_setParameter "Threshold" "MinimumThreshold" (FormatG lo);
    Call.effect_setParameter "Threshold" "MaximumThreshold" (FormatG hi);
    Call.processEvents ].



(** ** Sample sessions *)

Module Sample.

Import VesselTreeGeneratorWidget.

Definition CT : sitk.Image := sitk.Voxels [0; 120; 200; 480; 35]%Z.

Definition volume (name : string) (img : sitk.Image) : Node :=
  {| GetClass := vtkMRMLScalarVolumeNode; GetName := name;
     GetImageData := img; GetSegmentIDs := [] |}.

Definition labelmap (name : string) (img : sitk.Image) : Node :=
  {| GetClass := vtkMRMLLabelMapVolumeNode; GetName := name;
     GetImageData := img; GetSegmentIDs := [] |}.

Definition segmentation (name : string) (ids : list string) : Node :=
  {| GetClass := vtkMRMLSegmentationNode; GetName := name;
     GetImageData := sitk.NoImageData; GetSegmentIDs := ids |}.

Definition panel (input output : option NodeId) : UI :=
  {| inputSelector := input; outputSelector := output;
     inputSelectorSegmentation := None;
     SliderWidgetAlpha := 60; SliderWidgetBeta := 200 |}.

Definition host (m : gmap NodeId Node) (scene : list NodeId) : Slicer :=
  {| nodes := m; mrmlScene := scene;
     registeredEffects := ["Threshold"; "Islands"];
     activeEffect := None; calls := [] |}.

(** The module was just opened on an empty scene. *)
Definition startup : World :=
  {| self := init (panel None None); app := host ∅ [] |}.

(** A scan (node 1) and an output volume (node 2) are selected. *)
Definition loaded_nodes : gmap NodeId Node :=
  <[1%nat := volume "CTA" CT]>
    (<[2%nat := volume "Output" sitk.NoImageData]> ∅).

Definition loaded : World :=
  {| self := init (panel (Some 1%nat) (Some 2%nat));
     app := host loaded_nodes [1; 2]%nat |}.

(** [loaded], with the median radius and the save-intermediate box set. *)
Definition with_median (radius : Z) (save : bool) (w : World) : World :=
  {| self :=
       {| _medianRadius := Some radius;
          _segmentationNode3D := _segmentationNode3D (self w);
          _segmentId3D := _segmentId3D (self w);
          _lastThresholdMin := _lastThresholdMin (self w);
          _lastThresholdMax := _lastThresholdMax (self w);
          saveIntermediateVolume := save;
          ui := ui (self w) |};
     app := app w |}.

(** A first run left "intermediate_median" (node 3) in the scene, and the
    user now picks that node as the output volume. *)
Definition output_is_intermediate : World :=
  {| self := self (with_median 1 true
                     {| self := init (panel (Some 1%nat) (Some 3%nat));
                        app := app loaded |});
     app := host (<[3%nat := volume "intermediate_median"
                              (sitk.Execute (median_of 1) CT)]> loaded_nodes)
              [1; 2; 3]%nat |}.

(** A segmentation (node 3) with the segment "Vessels" exists on the output
    volume, and the threshold pair is the whole range of that volume. *)
Definition segmenting : World :=
  {| self :=
       {| _medianRadius := None;
          _segmentationNode3D := Some 3%nat;
          _segmentId3D := Some "Vessels";
          _lastThresholdMin := Some 0%Q;
          _lastThresholdMax := Some 1%Q;
          saveIntermediateVolume := false;
          ui := panel (Some 1%nat) (Some 2%nat) |};
     app := host (<[3%nat := segmentation "VesselsSegmentation" ["Vessels"]]>
                    loaded_nodes) [1; 2; 3]%nat |}.

(** A labelmap with the labels 0, 1 and 2 (node 1) and a volume for the
    distance map (node 2). *)
Definition three_labels : World :=
  {| self := init (panel None None);
     app := host (<[1%nat := labelmap "Vessels_Labelmap"
                              (sitk.Voxels [0; 2; 1; 0]%Z)]>
                    (<[2%nat := volume "Distance" sitk.NoImageData]> ∅))
              [1; 2]%nat |}.

End Sample.

(** ** Sequences of button events *)

(** The two noise-reduction buttons emit [toggled(bool)]; [setup] connects
    "low" to [onNoiseReductionLow] and "high" to [onNoiseReductionHigh]. *)
Inductive NoiseButton : Type :=
| buttonLow (checked : bool)
| buttonHigh (checked : bool).

Definition toggled (b : NoiseButton) : M unit :=
  match b with
  | buttonLow checked => VesselTreeGeneratorWidget.onNoiseReductionLow checked
  | buttonHigh checked => VesselTreeGeneratorWidget.onNoiseReductionHigh checked
  end.

(** The handlers run one after the other, in the order of the events. *)
Fixpoint toggles (events : list NoiseButton) : M unit :=
  match events with
  | [] => pass
  | b :: rest => toggled b;; toggles rest
  end.

(** The calls a handler added to the log of a world. *)
Definition new_calls {A : Type} (c : M A) (w : World) : list Call.t :=
  drop (length (calls (app w))) (calls (app (world_after c w))).

(** Two worlds differ at most in the image data of one node and in the call
    log: same widget attributes, same scene, same other node objects, and
    the node keeps its class, its name and its segments. *)
Definition only_image_of (o : NodeId) (w w' : World) : Prop :=
  self w' = self w ∧
  mrmlScene (app w') = mrmlScene (app w) ∧
  (∀ n, n ≠ o → node_at w' n = node_at w n) ∧
  GetClass <$> node_at w' o = GetClass <$> node_at w o ∧
  GetName <$> node_at w' o = GetName <$> node_at w o ∧
  GetSegmentIDs <$> node_at w' o = GetSegmentIDs <$> node_at w o.


(** ** Further sample sessions *)

Module Session.

(** [Sample.segmenting] in an editor that offers the given effects only. *)
Definition offering (effects : list string) : World :=
  {| self := self Sample.segmenting;
     app := {| nodes := nodes (app Sample.segmenting);
               mrmlScene := mrmlScene (app Sample.segmenting);
               registeredEffects := effects;
               activeEffect := None; calls := [] |} |}.

(** The segmentation (node 3) is selected for the distance map; the output
    volume is node 2 and the scene has the given further nodes. *)
Definition for_distance (more : gmap NodeId Node) (scene : list NodeId)
  : World :=
  {| self := VesselTreeGeneratorWidget.init
               {| inputSelector := Some 1%nat; outputSelector := Some 2%nat;
                  inputSelectorSegmentation := Some 3%nat;
                  SliderWidgetAlpha := 60; SliderWidgetBeta := 200 |};
     app := Sample.host
              (<[3%nat := Sample.segmentation "VesselsSegmentation"
                             ["Vessels"]]> (more ∪ Sample.loaded_nodes))
              ([1; 2; 3]%nat ++ scene) |}.


(** The scene has no node of that name. *)
Definition without_colours : World := for_distance ∅ [].

End Session.

(** The run reuses as intermediate node the node it finds under the name
    "intermediate_median"; this happens with a radius set and the
    save-intermediate box checked only. *)
Definition reuses (w : World) (n : NodeId) : Prop :=
  is_Some (_medianRadius (self w)) ∧
  saveIntermediateVolume (self w) = true ∧
  first_named "intermediate_median" w = Some n.

(** * Properties *)

Import VesselTreeGeneratorLogic VesselTreeGeneratorWidget.

(** ** Running the model *)

(** Run the monad, the host functions and the stages by value, down to
    worlds given by their fields; the maps, the lists and the tests on them
    stay as they are. *)
Ltac run :=
  cbv beta iota zeta delta
    [applyMedianFilter applySigmoidFilter MaurerDistance Execute
     slicer.tryWithErrorDisplay slicer.getNode
     slicer.setSliceViewerLayers slicer.errorDisplay slicer.RemoveNode
     slicer.GetFirstNodeByName slicer.AddNewNodeByClass
     sitkUtils.PullVolumeFromSlicer sitkUtils.PushVolumeToSlicer
     segmentEditorWidget3D.setSegmentationNode
     segmentEditorWidget3D.setSourceVolumeNode
     segmentEditorWidget3D.setCurrentSegmentID
     segmentEditorWidget3D.setActiveEffectByName
     segmentEditorWidget3D.setActiveEffect_None
     segmentEditorWidget3D.activeEffect
     segmentEditorWidget3D.setParameter
     segmentEditorWidget3D.onApply
     log pass raise gets modify_app modify_self try_except
     mbind M_bind mret M_ret
     fst snd self app nodes mrmlScene registeredEffects activeEffect calls
     set_nodes set_mrmlScene set_activeEffect set_calls
     set_medianRadius set_lastThreshold logged
     _medianRadius _segmentationNode3D _segmentId3D _lastThresholdMin
     _lastThresholdMax saveIntermediateVolume ui
     inputSelector outputSelector inputSelectorSegmentation
     SliderWidgetAlpha SliderWidgetBeta] in *.

(** The filter objects after the setters of the stages. *)
Ltac filters :=
  unfold sitk.SetRadius, sitk.SetAlpha, sitk.SetBeta, sitk.SetOutputMaximum,
    sitk.SetOutputMinimum, sitk.SetUseImageSpacing, sitk.SetSquaredDistance,
    sitk.SetBackgroundValue, sitk.SetInsideIsPositive,
    sitk.MedianImageFilter_new, sitk.SigmoidImageFilter_new,
    sitk.SignedMaurerDistanceMapImageFilter_new,
    outputMinimum_default, outputMaximum_default;
  cbn [sitk.Radius sitk.Alpha sitk.Beta sitk.OutputMaximum sitk.OutputMinimum
       sitk.InsideIsPositive sitk.SquaredDistance sitk.UseImageSpacing
       sitk.BackgroundValue].

Lemma executions_app (l k : list Call.t) :
  executions (l ++ k) = executions l ++ executions k.
Proof. apply omap_app. Qed.

(** A volume pushed to an existing node is what the node then holds. *)
Lemma pushed_image (m : gmap NodeId Node) (n : NodeId) (img : sitk.Image) :
  is_Some (m !! n) →
  default sitk.NoImageData
    (GetImageData <$> alter (SetImageData img) n m !! n) = img.
Proof. intros [x Hx]. rewrite lookup_alter_eq, Hx. reflexivity. Qed.

Lemma pushed_elsewhere (m : gmap NodeId Node) (n k : NodeId)
  (img : sitk.Image) :
  n ≠ k →
  default sitk.NoImageData
    (GetImageData <$> alter (SetImageData img) n m !! k) =
  default sitk.NoImageData (GetImageData <$> m !! k).
Proof. intros H. rewrite lookup_alter_ne by done. reflexivity. Qed.

Lemma pushed_exists (m : gmap NodeId Node) (n k : NodeId) (img : sitk.Image) :
  is_Some (m !! k) → is_Some (alter (SetImageData img) n m !! k).
Proof.
  intros [x Hx]. destruct (decide (n = k)) as [->|Hne].
  - rewrite lookup_alter_eq, Hx. eauto.
  - rewrite lookup_alter_ne by done. eauto.
Qed.

Lemma added_exists (m : gmap NodeId Node) (n k : NodeId) (x : Node) :
  is_Some (m !! k) → is_Some (<[n := x]> m !! k).
Proof.
  intros [y Hy]. destruct (decide (n = k)) as [->|Hne].
  - rewrite lookup_insert_eq. eauto.
  - rewrite lookup_insert_ne by done. eauto.
Qed.

(** A new node is none of the node objects that exist. *)
Lemma fresh_node (m : gmap NodeId Node) (k : NodeId) :
  is_Some (m !! k) → fresh (dom m) ≠ k.
Proof.
  intros Hk Heq. apply (is_fresh (dom m)). rewrite Heq.
  by apply elem_of_dom.
Qed.

(** What [GetFirstNodeByName] finds is a node of the scene with that name. *)
Lemma found_by_name (w : World) (name : string) (n : NodeId) :
  first_named name w = Some n →
  n ∈ mrmlScene (app w) ∧ is_Some (node_at w n) ∧
  GetName <$> node_at w n = Some name.
Proof.
  intros H. unfold first_named in H. apply find_some in H as [Hin Hname].
  apply bool_decide_eq_true in Hname.
  split; [by apply list_elem_of_In|].
  split; [|done].
  destruct (node_at w n); [eauto | discriminate].
Qed.

(** ** The three stages *)

Lemma applyMedianFilter_runs (i o : NodeId) (radius : Z) (showResults : bool)
  (w : World) :
  applyMedianFilter (Some i) (Some o) radius showResults w =
  (Return tt, stage_result (median_of radius) i o showResults w).
Proof.
  unfold stage_result. run. filters. fold (median_of radius).
  destruct showResults; run; [rewrite <- app_assoc|]; reflexivity.
Qed.

(** The sigmoid filter is executed with the given alpha and beta; with the
    default keyword arguments its output range is 0 to 1. *)
Lemma applySigmoidFilter_runs (i o : NodeId) (alpha beta : Q)
  (showResults : bool) (w : World) :
  applySigmoidFilter (Some i) (Some o) alpha beta
    outputMinimum_default outputMaximum_default showResults w =
  (Return tt, stage_result (sigmoid_of alpha beta) i o showResults w).
Proof.
  unfold stage_result. run. filters. fold (sigmoid_of alpha beta).
  destruct showResults; run; [rewrite <- app_assoc|]; reflexivity.
Qed.

(** The distance filter is executed on a labelmap node with image spacing in
    use, distances not squared, background value 0 and the inside not
    positive. *)
Lemma MaurerDistance_runs (i o : NodeId) (n : Node) (showResults : bool)
  (w : World) :
  node_at w i = Some n →
  IsA (GetClass n) "vtkMRMLLabelMapVolumeNode" = true →
  MaurerDistance (Some i) (Some o) showResults w =
  (Return tt, stage_result maurer i o showResults w).
Proof.
  intros Hn Hc. unfold stage_result. run. rewrite Hn.
  cbn [fmap option_fmap option_map from_option]. rewrite Hc. cbn [negb].
  filters. fold maurer.
  destruct showResults; run; [rewrite <- app_assoc|]; reflexivity.
Qed.

(** Among the node classes, only a labelmap volume node is a
    [vtkMRMLLabelMapVolumeNode]. *)
Lemma IsA_labelmap (c : NodeClass) :
  IsA c "vtkMRMLLabelMapVolumeNode" = true ↔ c = vtkMRMLLabelMapVolumeNode.
Proof. destruct c; vm_compute; split; congruence. Qed.

(** C9.  A call of the median stage, the sigmoid stage or the distance stage
    in which the input volume or the output volume is absent raises
    [ValueError("Input or output volume is invalid")] at once: the world is
    left as it was, no filter has run and no node was written. *)
Theorem stages_reject_absent_volume (inputVolume outputVolume : option NodeId)
  (w : World) :
  inputVolume = None ∨ outputVolume = None →
  let rejected : outcome unit * World :=
    (Raise (ValueError "Input or output volume is invalid"), w) in
  (∀ radius showResults,
     applyMedianFilter inputVolume outputVolume radius showResults w
     = rejected) ∧
  (∀ alpha beta outputMinimum outputMaximum showResults,
     applySigmoidFilter inputVolume outputVolume alpha beta
       outputMinimum outputMaximum showResults w = rejected) ∧
  (∀ showResults,
     MaurerDistance inputVolume outputVolume showResults w = rejected).
Proof.
  intros H rejected.
  destruct inputVolume as [i|], outputVolume as [o|];
    destruct H as [H|H]; try discriminate H;
    repeat split; intros; reflexivity.
Qed.

Lemma stages_reject_absent_volume_witness :
  ((None : option NodeId) = None ∨ Some 2%nat = None) ∧
  (∀ radius showResults,
     applyMedianFilter None (Some 2%nat) radius showResults Sample.loaded
     = (Raise (ValueError "Input or output volume is invalid"),
        Sample.loaded)).
Proof.
  split; [left; reflexivity|].
  apply (stages_reject_absent_volume None (Some 2%nat) Sample.loaded).
  left; reflexivity.
Defined.

(** ** The distance stage *)




(** The only exceptions of the distance stage: the [ValueError] for an absent
    volume and the [TypeError] for an input that is not a labelmap node. *)
Lemma MaurerDistance_raises_only (inputVolume outputVolume : option NodeId)
  (showResults : bool) (w : World) (e : exn) :
  outcome_of (MaurerDistance inputVolume outputVolume showResults) w
  = Raise e →
  e = ValueError "Input or output volume is invalid" ∨
  ∃ className,
    e = TypeError ("Input volume must be a binary labelmap. Got " +:+
                   className +:+ ".").
Proof.
  unfold outcome_of.
  destruct inputVolume as [i|], outputVolume as [o|];
    try (intros [= <-]; left; reflexivity).
  run.
  destruct (negb _).
  - intros [= <-]. right. eauto.
  - destruct showResults; run; discriminate.
Qed.

(** ** Threshold preview and the 3D step *)

Ltac same_world := run; rewrite <- ?app_assoc; reflexivity.

(** Case analysis on what a [match] of the goal looks at. *)
Ltac branch :=
  match goal with
  | |- context [match ?x with _ => _ end] => destruct x eqn:?
  end; run.

(** [segment_of] is the guard
    [not self._segmentationNode3D or not self._segmentId3D], negated. *)
Lemma segment_of_None (w : World) :
  segment_of w = None ↔
  _segmentationNode3D (self w) = None ∨
  truthy (_segmentId3D (self w)) = false.
Proof.
  unfold segment_of.
  destruct (_segmentationNode3D (self w)) as [seg|],
    (_segmentId3D (self w)) as [[|c sid]|]; cbn; split; intros H;
    try reflexivity; try discriminate H; auto;
    destruct H as [H|H]; discriminate H.
Qed.

(** A preview with a segmentation, an output volume and the Threshold effect
    at hand: the pair is recorded and handed to the effect as it came. *)
Lemma preview_runs (minimum maximum : Q) (w : World) (seg v : NodeId)
  (sid : string) :
  segment_of w = Some (seg, sid) →
  outputSelector (ui (self w)) = Some v →
  "Threshold" ∈ registeredEffects (app w) →
  onThresholdValuesChanged minimum maximum w =
  (Return tt,
   {| self := set_lastThreshold (Some minimum) (Some maximum) (self w);
      app := set_activeEffect (Some "Threshold")
               (set_calls
                  (calls (app w) ++ preview_calls seg v sid minimum maximum)
                  (app w)) |}).
Proof.
  intros Hs Hv Ht. unfold onThresholdValuesChanged. run.
  change (segment_of _) with (segment_of w). rewrite Hs. run.
  rewrite Hv. run.
  rewrite (bool_decide_eq_true_2 _ Ht). unfold preview_calls. same_world.
Qed.


(** The 3D step catches every exception of its body. *)
Lemma finalize_never_raises (w : World) :
  outcome_of onApplyThresholdShow3D w = Return tt.
Proof.
  unfold outcome_of, onApplyThresholdShow3D. run.
  destruct (applyThresholdShow3D_try w) as [[[summary|]|e] w'];
    reflexivity.
Qed.

(** C10.  A threshold change that arrives while there is no segmentation
    node or no segment id, or while no output volume is selected, returns
    without an exception, and the only thing it changes is the recorded
    threshold pair. *)
Theorem preview_without_target_only_records (minimum maximum : Q)
  (w : World) :
  _segmentationNode3D (self w) = None ∨
  truthy (_segmentId3D (self w)) = false ∨
  outputSelector (ui (self w)) = None →
  onThresholdValuesChanged minimum maximum w =
  (Return tt,
   {| self := set_lastThreshold (Some minimum) (Some maximum) (self w);
      app := app w |}).
Proof.
  intros H. unfold onThresholdValuesChanged. run.
  change (segment_of _) with (segment_of w).
  destruct (segment_of w) as [[seg sid]|] eqn:Hs; run; [|reflexivity].
  branch; [|reflexivity].
  destruct H as [H|[H|H]]; [| |congruence];
    assert (segment_of w = None) by (apply segment_of_None; run; auto);
    congruence.
Qed.

Lemma preview_without_target_only_records_witness :
  (_segmentationNode3D (self Sample.loaded) = None ∨
   truthy (_segmentId3D (self Sample.loaded)) = false ∨
   outputSelector (ui (self Sample.loaded)) = None) ∧
  onThresholdValuesChanged 0.4%Q 0.9%Q Sample.loaded =
  (Return tt,
   {| self := set_lastThreshold (Some 0.4%Q) (Some 0.9%Q)
                (self Sample.loaded);
      app := app Sample.loaded |}).
Proof.
  split; [left; reflexivity|].
  apply (preview_without_target_only_records 0.4%Q 0.9%Q Sample.loaded).
  left; reflexivity.
Defined.









(** ** Preprocessing: the Apply button *)

(** A term with the projections in the form [run] leaves them in. *)
Ltac normal x :=
  eval cbv beta iota zeta delta
    [fst snd self app nodes mrmlScene registeredEffects activeEffect calls
     _medianRadius _segmentationNode3D _segmentId3D _lastThresholdMin
     _lastThresholdMax saveIntermediateVolume ui
     inputSelector outputSelector inputSelectorSegmentation
     SliderWidgetAlpha SliderWidgetBeta] in x.

(** Case analysis on a field of the world. *)
Ltac on x := let y := normal x in destruct y eqn:?; run.

Lemma new_node_exists (m : gmap NodeId Node) (n : NodeId) (x : Node) :
  is_Some (<[n := x]> m !! n).
Proof. rewrite lookup_insert_eq. eauto. Qed.

(** Read the filter executions and the node contents off a world. *)
Ltac observe :=
  unfold image_at, node_at in *; run; filters; unfold median_of, sigmoid_of;
  rewrite ?(lookup_insert_ne (nodes (app _)))
    by (apply fresh_node; assumption);
  rewrite ?pushed_image
    by eauto using pushed_exists, added_exists, new_node_exists;
  rewrite ?executions_app; cbn [executions omap];
  rewrite ?app_nil_r, <- ?app_assoc;
  repeat split; reflexivity.

(** The noise-reduction buttons: "low" chooses radius 1 and "high" radius 2
    when they are checked, and unchecking either changes nothing. *)
Lemma noise_reduction_buttons (w : World) :
  _medianRadius (self (world_after (onNoiseReductionLow true) w)) = Some 1%Z ∧
  _medianRadius (self (world_after (onNoiseReductionHigh true) w)) = Some 2%Z ∧
  world_after (onNoiseReductionLow false) w = w ∧
  world_after (onNoiseReductionHigh false) w = w.
Proof. repeat split; reflexivity. Qed.

(** A [with tryWithErrorDisplay] block whose body returns: the wait cursor
    is set before and restored after, and nothing else is added. *)
Lemma tryWithErrorDisplay_returns {A : Type} (message : string) (body : M A)
  (w w' : World) (a : A) :
  body (logged [Call.setOverrideCursor] w) = (Return a, w') →
  slicer.tryWithErrorDisplay message body w
  = (Return a, logged [Call.restoreOverrideCursor] w').
Proof. intros H. run. rewrite H. reflexivity. Qed.

(** The body of the Apply handler with both volumes selected. *)
Lemma applySettings_with_runs (w : World) (i o : NodeId) :
  inputSelector (ui (self w)) = Some i →
  outputSelector (ui (self w)) = Some o →
  is_Some (node_at w i) →
  is_Some (node_at w o) →
  let alpha := SliderWidgetAlpha (ui (self w)) in
  let beta := SliderWidgetBeta (ui (self w)) in
  let w' := world_after applySettings_with w in
  outcome_of applySettings_with w = Return tt ∧
  match _medianRadius (self w) with
  | Some r =>
      executed w'
      = executed w ++
        [(median_of r, image_at w i);
         (sigmoid_of alpha beta, sitk.Execute (median_of r) (image_at w i))] ∧
      image_at w' o
      = sitk.Execute (sigmoid_of alpha beta)
          (sitk.Execute (median_of r) (image_at w i))
  | None =>
      executed w' = executed w ++ [(sigmoid_of alpha beta, image_at w i)] ∧
      image_at w' o = sitk.Execute (sigmoid_of alpha beta) (image_at w i)
  end.
Proof.
  intros Hi Ho Hni Hn alpha beta.
  unfold outcome_of, world_after, applySettings_with, executed in *.
  subst alpha beta. run. rewrite Hi, Ho. run.
  on (_medianRadius (self w)).
  - on (saveIntermediateVolume (self w)).
    + match goal with
      | |- context [first_named ?name ?x] =>
          change (first_named name x) with (first_named name w);
          destruct (first_named name w) as [e|] eqn:E
      end; run.
      * apply found_by_name in E as (_ & He & _). observe.
      * observe.
    + observe.
  - observe.
Qed.

(** C7.  A preprocessing run with an input and an output volume selected
    returns normally.  With a median radius [r] set, exactly two filters are
    executed: the median filter of radius [r] on the input volume, then the
    sigmoid filter on the median filter's output.  With no radius set only
    the sigmoid filter is executed, on the input volume.  In both cases the
    sigmoid filter (alpha and beta of the sliders, output range 0 to 1) is
    the last filter, and its output is what the output volume holds. *)
Theorem onApplySettings_median_then_sigmoid (w : World) (i o : NodeId) :
  inputSelector (ui (self w)) = Some i →
  outputSelector (ui (self w)) = Some o →
  is_Some (node_at w i) →
  is_Some (node_at w o) →
  let alpha := SliderWidgetAlpha (ui (self w)) in
  let beta := SliderWidgetBeta (ui (self w)) in
  let w' := world_after onApplySettings w in
  outcome_of onApplySettings w = Return tt ∧
  match _medianRadius (self w) with
  | Some r =>
      executed w'
      = executed w ++
        [(median_of r, image_at w i);
         (sigmoid_of alpha beta, sitk.Execute (median_of r) (image_at w i))] ∧
      image_at w' o
      = sitk.Execute (sigmoid_of alpha beta)
          (sitk.Execute (median_of r) (image_at w i))
  | None =>
      executed w' = executed w ++ [(sigmoid_of alpha beta, image_at w i)] ∧
      image_at w' o = sitk.Execute (sigmoid_of alpha beta) (image_at w i)
  end.
Proof.
  intros Hi Ho Hni Hn alpha beta w'.
  pose proof (applySettings_with_runs (logged [Call.setOverrideCursor] w)
                i o Hi Ho Hni Hn) as H.
  cbv zeta in H. unfold outcome_of, world_after in H.
  subst w'. unfold outcome_of, world_after, onApplySettings.
  destruct (applySettings_with (logged [Call.setOverrideCursor] w))
    as [r w1] eqn:E.
  cbn [fst snd] in H. destruct H as [-> H].
  rewrite (tryWithErrorDisplay_returns _ _ w w1 tt E).
  cbn [fst snd]. split; [reflexivity|].
  assert (Hw : executed (logged [Call.setOverrideCursor] w) = executed w).
  { unfold executed. run. rewrite executions_app. apply app_nil_r. }
  assert (Hw1 : executed (logged [Call.restoreOverrideCursor] w1)
                = executed w1).
  { unfold executed. run. rewrite executions_app. apply app_nil_r. }
  rewrite Hw1. rewrite Hw in H. exact H.
Qed.

Lemma onApplySettings_median_then_sigmoid_witness :
  (inputSelector (ui (self (Sample.with_median 2 false Sample.loaded)))
   = Some 1%nat ∧
   outputSelector (ui (self (Sample.with_median 2 false Sample.loaded)))
   = Some 2%nat ∧
   is_Some (node_at (Sample.with_median 2 false Sample.loaded) 1%nat) ∧
   is_Some (node_at (Sample.with_median 2 false Sample.loaded) 2%nat)) ∧
  outcome_of onApplySettings (Sample.with_median 2 false Sample.loaded)
  = Return tt ∧
  executed (world_after onApplySettings
              (Sample.with_median 2 false Sample.loaded))
  = [(median_of 2, Sample.CT);
     (sigmoid_of 60 200, sitk.Execute (median_of 2) Sample.CT)] ∧
  image_at (world_after onApplySettings
              (Sample.with_median 2 false Sample.loaded)) 2%nat
  = sitk.Execute (sigmoid_of 60 200) (sitk.Execute (median_of 2) Sample.CT).
Proof.
  assert (H1 : is_Some (node_at (Sample.with_median 2 false Sample.loaded)
                          1%nat)) by (vm_compute; eauto).
  assert (H2 : is_Some (node_at (Sample.with_median 2 false Sample.loaded)
                          2%nat)) by (vm_compute; eauto).
  split; [repeat split; assumption|].
  exact (onApplySettings_median_then_sigmoid
           (Sample.with_median 2 false Sample.loaded) 1%nat 2%nat
           eq_refl eq_refl H1 H2).
Defined.

(** ** The intermediate median volume *)

Lemma name_pushed (m : gmap NodeId Node) (k n : NodeId) (img : sitk.Image) :
  GetName <$> alter (SetImageData img) k m !! n = GetName <$> m !! n.
Proof.
  destruct (decide (k = n)) as [->|Hne].
  - rewrite lookup_alter_eq. destruct (m !! n); reflexivity.
  - rewrite lookup_alter_ne by done. reflexivity.
Qed.

Lemma find_ext {A : Type} (f g : A → bool) (l : list A) :
  (∀ x, x ∈ l → f x = g x) → List.find f l = List.find g l.
Proof.
  induction l as [|a l IH]; intros H; [reflexivity|].
  cbn. rewrite (H a) by apply list_elem_of_here.
  rewrite IH; [reflexivity|].
  intros x Hx. apply H. by apply list_elem_of_further.
Qed.

Lemma find_snoc {A : Type} (f : A → bool) (l : list A) (a : A) :
  List.find f l = None → List.find f (l ++ [a]) = if f a then Some a else None.
Proof.
  induction l as [|b l IH]; intros H; [reflexivity|].
  cbn in *. destruct (f b); [discriminate H | by apply IH].
Qed.

Lemma filter_out_last (l : list NodeId) (n : NodeId) :
  n ∉ l → filter (λ m, m ≠ n) (l ++ [n]) = l.
Proof.
  induction l as [|a l IH]; intros H.
  - rewrite app_nil_l, filter_cons_False by (intros Hn; by apply Hn).
    reflexivity.
  - rewrite <- app_comm_cons, filter_cons_True.
    + rewrite IH; [reflexivity|].
      intros Hn. apply H. by apply list_elem_of_further.
    + intros ->. apply H. apply list_elem_of_here.
Qed.

(** The Apply handler with both volumes selected leaves the world of its
    body, with the wait cursor restored. *)
Lemma onApplySettings_world (w : World) (i o : NodeId) :
  inputSelector (ui (self w)) = Some i →
  outputSelector (ui (self w)) = Some o →
  is_Some (node_at w i) →
  is_Some (node_at w o) →
  world_after onApplySettings w
  = logged [Call.restoreOverrideCursor]
      (world_after applySettings_with (logged [Call.setOverrideCursor] w)).
Proof.
  intros Hi Ho Hni Hn.
  pose proof (applySettings_with_runs (logged [Call.setOverrideCursor] w)
                i o Hi Ho Hni Hn) as H.
  cbv zeta in H. destruct H as [H _].
  unfold outcome_of, world_after, onApplySettings in *.
  destruct (applySettings_with (logged [Call.setOverrideCursor] w))
    as [r w1] eqn:E.
  cbn [fst snd] in *. subst r.
  rewrite (tryWithErrorDisplay_returns _ _ w w1 tt E). reflexivity.
Qed.

(** What becomes of the median-filtered volume, in the body of the handler. *)
Lemma applySettings_with_intermediate (w : World) (i o : NodeId) (r : Z) :
  inputSelector (ui (self w)) = Some i →
  outputSelector (ui (self w)) = Some o →
  is_Some (node_at w i) →
  is_Some (node_at w o) →
  scene_in_heap w →
  _medianRadius (self w) = Some r →
  let w' := world_after applySettings_with w in
  let median := sitk.Execute (median_of r) (image_at w i) in
  if saveIntermediateVolume (self w) then
    first_named "intermediate_median" w ≠ Some o →
    ∃ m, first_named "intermediate_median" w' = Some m ∧
         image_at w' m = median
  else
    mrmlScene (app w') = mrmlScene (app w) ∧
    ∀ n, n ∈ mrmlScene (app w) → n ≠ o → image_at w' n = image_at w n.
Proof.
  intros Hi Ho Hni Hn Hscene Hr w' median. subst w' median.
  unfold world_after, applySettings_with. run. rewrite Hi, Ho. run.
  rewrite Hr. run.
  on (saveIntermediateVolume (self w)).
  - match goal with
    | |- context [first_named ?name ?x] =>
        change (first_named name x) with (first_named name w);
        destruct (first_named name w) as [e|] eqn:E
    end; run.
    + intros Hne. assert (o ≠ e) by congruence.
      pose proof (found_by_name _ _ _ E) as (_ & He & _).
      exists e. unfold first_named, image_at, node_at in *. run. split.
      * rewrite <- E. apply find_ext. intros x _. by rewrite !name_pushed.
      * rewrite pushed_elsewhere by done. rewrite pushed_image by done.
        filters. reflexivity.
    + intros _. pose proof (fresh_node _ _ Hn) as Hfresh.
      eexists. unfold first_named, image_at, node_at, scene_in_heap in *.
      run. split.
      * rewrite find_snoc.
        -- rewrite !name_pushed, lookup_insert_eq.
           cbn [fmap option_fmap option_map new_node GetName].
           rewrite bool_decide_eq_true_2 by reflexivity. reflexivity.
        -- rewrite <- E. apply find_ext. intros x Hx.
           rewrite !name_pushed, lookup_insert_ne; [reflexivity|].
           apply fresh_node. by apply Hscene.
      * rewrite pushed_elsewhere by done.
        rewrite pushed_image by apply new_node_exists.
        rewrite lookup_insert_ne by (by apply fresh_node).
        filters. reflexivity.
  - unfold image_at, node_at, scene_in_heap in *. run. split.
    + apply filter_out_last. intros Hin. apply Hscene in Hin.
      by apply (fresh_node _ _ Hin).
    + intros x Hx Hxo.
      rewrite pushed_elsewhere by done.
      rewrite pushed_elsewhere by (apply fresh_node; by apply Hscene).
      rewrite lookup_insert_ne by (apply fresh_node; by apply Hscene).
      reflexivity.
Qed.

(** Where the intermediate volume is kept or removed as intended.  In a run
    with a median radius set: with
    the save-intermediate box checked, and the output volume not itself the
    first node named "intermediate_median", that node holds the
    median-filtered volume after the run; with the box unchecked the scene
    has the nodes it had before, and apart from the output volume they hold
    what they held. *)
Lemma intermediate_volume_when_not_the_output (w : World) (i o : NodeId)
  (r : Z) :
  inputSelector (ui (self w)) = Some i →
  outputSelector (ui (self w)) = Some o →
  is_Some (node_at w i) →
  is_Some (node_at w o) →
  scene_in_heap w →
  _medianRadius (self w) = Some r →
  let w' := world_after onApplySettings w in
  let median := sitk.Execute (median_of r) (image_at w i) in
  if saveIntermediateVolume (self w) then
    first_named "intermediate_median" w ≠ Some o →
    ∃ m, first_named "intermediate_median" w' = Some m ∧
         image_at w' m = median
  else
    mrmlScene (app w') = mrmlScene (app w) ∧
    ∀ n, n ∈ mrmlScene (app w) → n ≠ o → image_at w' n = image_at w n.
Proof.
  intros Hi Ho Hni Hn Hscene Hr w'. subst w'.
  rewrite (onApplySettings_world w i o Hi Ho Hni Hn).
  exact (applySettings_with_intermediate (logged [Call.setOverrideCursor] w)
           i o r Hi Ho Hni Hn Hscene Hr).
Qed.

(** C8 at an input where the code departs from it.  A first run left the
    node "intermediate_median" in the scene and the user now selects that
    node as the output volume, with radius 1 and the save-intermediate box
    checked.  The median filter writes to the node, and then the sigmoid
    filter overwrites it: after the run the scene has the same three nodes
    and none of them holds the median-filtered volume. *)
Lemma intermediate_volume_lost_when_it_is_the_output :
  saveIntermediateVolume (self Sample.output_is_intermediate) = true ∧
  _medianRadius (self Sample.output_is_intermediate) = Some 1%Z ∧
  outcome_of onApplySettings Sample.output_is_intermediate = Return tt ∧
  map (λ n, (n, image_at (world_after onApplySettings
                            Sample.output_is_intermediate) n))
    (mrmlScene (app (world_after onApplySettings
                       Sample.output_is_intermediate)))
  = [(1%nat, Sample.CT);
     (2%nat, sitk.NoImageData);
     (3%nat, sitk.Execute (sigmoid_of 60 200)
               (sitk.Execute (median_of 1) Sample.CT))] ∧
  ¬ ∃ n,
      n ∈ mrmlScene (app (world_after onApplySettings
                            Sample.output_is_intermediate)) ∧
      image_at (world_after onApplySettings Sample.output_is_intermediate) n
      = sitk.Execute (median_of 1) Sample.CT.
Proof.
  split; [reflexivity|]. split; [reflexivity|].
  split; [vm_compute; reflexivity|].
  split; [vm_compute; reflexivity|].
  intros (n & Hin & Heq).
  assert (Hscene : mrmlScene (app (world_after onApplySettings
                                     Sample.output_is_intermediate))
                   = [1; 2; 3]%nat) by (vm_compute; reflexivity).
  rewrite Hscene in Hin.
  repeat (apply elem_of_cons in Hin as [->|Hin];
          [vm_compute in Heq; discriminate Heq|]).
  by apply elem_of_nil in Hin.
Qed.

(** ** The distance map button *)

Lemma IsA_segmentation (c : NodeClass) :
  IsA c "vtkMRMLSegmentationNode" = true ↔ c = vtkMRMLSegmentationNode.
Proof. destruct c; vm_compute; split; congruence. Qed.

(** The handler of the button makes the labelmap binary before it calls the
    distance stage: the one filter it executes is the distance filter, on
    the exported labelmap after [> 0] and the cast to [sitkUInt8]. *)
Lemma onComputeMaurerDistance_binarises (w : World) (seg ref : NodeId)
  (n : Node) :
  inputSelectorSegmentation (ui (self w)) = Some seg →
  node_at w seg = Some n →
  GetClass n = vtkMRMLSegmentationNode →
  outputSelector (ui (self w)) = Some ref →
  GetSegmentIDs n ≠ [] →
  executed (world_after onComputeMaurerDistance w)
  = executed w ++
    [(maurer,
      sitk.Cast
        (sitk.Greater (sitk.ExportedLabelmap seg (GetSegmentIDs n) ref) 0)
        sitk.sitkUInt8)].
Proof.
  intros Hseg Hn Hc Href Hids.
  apply IsA_segmentation in Hc.
  unfold world_after, onComputeMaurerDistance, computeMaurerDistance_with, executed.
  run. rewrite Hseg. run. unfold node_at in *. run. rewrite Hn. 
  cbn [from_option]. rewrite Hc. cbn [negb]. rewrite Href. run.
  destruct (GetSegmentIDs n) as [|sid ids] eqn:Eids; [congruence|].
  cbn [length Nat.ltb Nat.leb]. run.
  unfold image_at, node_at. run.
  set (n1 := fresh (dom (nodes (app w)))).
  set (m0 := <[n1 := new_node vtkMRMLLabelMapVolumeNode "Vessels_Labelmap"]> (nodes (app w))).
  assert (H0 : is_Some (m0 !! n1)) by apply new_node_exists.
  rewrite (pushed_image m0 n1) by done.
  set (m1 := alter _ n1 (alter _ n1 m0)).
  assert (H1 : is_Some (m1 !! n1)) by (subst m1; eauto using pushed_exists).
  set (n2 := fresh (dom m1)).
  assert (H2 : n2 ≠ n1) by (by apply fresh_node).
  rewrite !(lookup_insert_ne m1) by done.
  assert (Hcls : GetClass <$> m1 !! n1 = Some vtkMRMLLabelMapVolumeNode).
  { subst m1 m0. rewrite !lookup_alter_eq, lookup_insert_eq. reflexivity. }
  rewrite Hcls. cbn [from_option].
  rewrite (proj2 (IsA_labelmap _) eq_refl). cbn [negb]. run.
  rewrite !(lookup_insert_ne m1) by done.
  assert (Himg : default sitk.NoImageData (GetImageData <$> m1 !! n1)
                 = sitk.Cast
                     (sitk.Greater
                        (sitk.ExportedLabelmap seg (sid :: ids) ref) 0)
                     sitk.sitkUInt8)
    by (subst m1; apply pushed_image; eauto using pushed_exists).
  rewrite Himg.
  destruct (first_named _ _); run; filters; fold maurer;
    rewrite ?executions_app; cbn [executions omap];
    rewrite ?app_nil_r, <- ?app_assoc; reflexivity.
Qed.

(** * Further properties *)

(** ** The stages, beyond their guards *)

Lemma IsA_other (c : NodeClass) :
  c ≠ vtkMRMLLabelMapVolumeNode → IsA c "vtkMRMLLabelMapVolumeNode" = false.
Proof.
  intros H. destruct (IsA c "vtkMRMLLabelMapVolumeNode") eqn:E; [|reflexivity].
  apply IsA_labelmap in E. contradiction.
Qed.

(** X1.  The distance stage accepts labelmap nodes only: for an input node of
    any other class it raises the [TypeError] that names the class of the
    node, whatever the voxels of the node are, and leaves the world as it
    was. *)
Theorem MaurerDistance_rejects_other_nodes (i o : NodeId) (n : Node)
  (showResults : bool) (w : World) :
  node_at w i = Some n →
  GetClass n ≠ vtkMRMLLabelMapVolumeNode →
  MaurerDistance (Some i) (Some o) showResults w
  = (Raise (TypeError ("Input volume must be a binary labelmap. Got " +:+
                       GetClassName (GetClass n) +:+ ".")), w).
Proof.
  intros Hn Hc. apply IsA_other in Hc. run. unfold node_at in *. run.
  rewrite Hn. cbn [fmap option_fmap option_map from_option].
  rewrite Hc. reflexivity.
Qed.

Lemma MaurerDistance_rejects_other_nodes_witness :
  (node_at Sample.three_labels 2%nat
   = Some (Sample.volume "Distance" sitk.NoImageData) ∧
   GetClass (Sample.volume "Distance" sitk.NoImageData)
   ≠ vtkMRMLLabelMapVolumeNode) ∧
  MaurerDistance (Some 2%nat) (Some 1%nat) true Sample.three_labels
  = (Raise (TypeError
       "Input volume must be a binary labelmap. Got vtkMRMLScalarVolumeNode."),
     Sample.three_labels).
Proof.
  assert (H1 : node_at Sample.three_labels 2%nat
               = Some (Sample.volume "Distance" sitk.NoImageData))
    by (vm_compute; reflexivity).
  assert (H2 : GetClass (Sample.volume "Distance" sitk.NoImageData)
               ≠ vtkMRMLLabelMapVolumeNode) by discriminate.
  split; [split; assumption|].
  exact (MaurerDistance_rejects_other_nodes 2%nat 1%nat _ true
           Sample.three_labels H1 H2).
Defined.

(** X2.  The sigmoid stage hands each of its four parameters to the filter
    setting of the same name, so that none of the values a new filter object
    starts with is left; the filter runs once, on the volume the input node
    held before the call, also when the input node is the output node, and
    the output node then holds the result. *)
Theorem applySigmoidFilter_result (i o : NodeId)
  (alpha beta outputMinimum outputMaximum : Q) (showResults : bool)
  (w : World) :
  is_Some (node_at w o) →
  let f := sitk.Sigmoid {| sitk.Alpha := alpha; sitk.Beta := beta;
                           sitk.OutputMaximum := outputMaximum;
                           sitk.OutputMinimum := outputMinimum |} in
  let stage := applySigmoidFilter (Some i) (Some o) alpha beta
                 outputMinimum outputMaximum showResults in
  outcome_of stage w = Return tt ∧
  executed (world_after stage w) = executed w ++ [(f, image_at w i)] ∧
  image_at (world_after stage w) o = sitk.Execute f (image_at w i).
Proof.
  intros Ho f stage. subst f stage.
  unfold outcome_of, world_after, executed.
  destruct showResults; observe.
Qed.

Lemma applySigmoidFilter_result_witness :
  is_Some (node_at Sample.loaded 1%nat) ∧
  outcome_of (applySigmoidFilter (Some 1%nat) (Some 1%nat) 30 100 10 250 false)
    Sample.loaded = Return tt ∧
  executed (world_after
              (applySigmoidFilter (Some 1%nat) (Some 1%nat) 30 100 10 250
                 false) Sample.loaded)
  = executed Sample.loaded ++
    [(sitk.Sigmoid {| sitk.Alpha := 30; sitk.Beta := 100;
                      sitk.OutputMaximum := 250; sitk.OutputMinimum := 10 |},
      image_at Sample.loaded 1%nat)] ∧
  image_at (world_after
              (applySigmoidFilter (Some 1%nat) (Some 1%nat) 30 100 10 250
                 false) Sample.loaded) 1%nat
  = sitk.Execute
      (sitk.Sigmoid {| sitk.Alpha := 30; sitk.Beta := 100;
                       sitk.OutputMaximum := 250; sitk.OutputMinimum := 10 |})
      (image_at Sample.loaded 1%nat).
Proof.
  assert (H : is_Some (node_at Sample.loaded 1%nat)) by (vm_compute; eauto).
  split; [exact H|].
  exact (applySigmoidFilter_result 1%nat 1%nat 30 100 10 250 false
           Sample.loaded H).
Defined.

Lemma only_image_of_same (o : NodeId) (w : World) : only_image_of o w w.
Proof. repeat split; reflexivity. Qed.

Lemma only_image_of_stage (f : sitk.Filter) (i o : NodeId)
  (showResults : bool) (w : World) :
  only_image_of o w (stage_result f i o showResults w).
Proof.
  unfold only_image_of, stage_result, node_at. run.
  split; [reflexivity|]. split; [reflexivity|].
  split; [intros n Hn; by rewrite lookup_alter_ne|].
  rewrite lookup_alter_eq. destruct (nodes (app w) !! o); repeat split.
Qed.

(** X3.  Whatever their arguments and however they end, the three stages
    change nothing of the scene but the image data of their output node: the
    widget, the list of scene nodes and every other node object stay as they
    were, and the output node keeps its class, its name and its segments. *)
Theorem stages_write_only_the_output (inputVolume : option NodeId)
  (o : NodeId) (w : World) :
  (∀ radius showResults,
     only_image_of o w
       (world_after
          (applyMedianFilter inputVolume (Some o) radius showResults) w)) ∧
  (∀ alpha beta outputMinimum outputMaximum showResults,
     only_image_of o w
       (world_after
          (applySigmoidFilter inputVolume (Some o) alpha beta
             outputMinimum outputMaximum showResults) w)) ∧
  (∀ showResults,
     only_image_of o w
       (world_after (MaurerDistance inputVolume (Some o) showResults) w)).
Proof.
  destruct inputVolume as [i|];
    [|repeat split; intros; apply only_image_of_same].
  split; [|split].
  - intros radius showResults. unfold world_after.
    rewrite applyMedianFilter_runs. apply only_image_of_stage.
  - intros alpha beta lo hi showResults. unfold world_after.
    assert (H : applySigmoidFilter (Some i) (Some o) alpha beta lo hi
                  showResults w
                = (Return tt,
                   stage_result
                     (sitk.Sigmoid {| sitk.Alpha := alpha; sitk.Beta := beta;
                                      sitk.OutputMaximum := hi;
                                      sitk.OutputMinimum := lo |})
                     i o showResults w)).
    { unfold stage_result. run. filters.
      destruct showResults; run; [rewrite <- app_assoc|]; reflexivity. }
    rewrite H. apply only_image_of_stage.
  - intros showResults. unfold world_after.
    destruct (node_at w i) as [n|] eqn:Hn.
    + destruct (IsA (GetClass n) "vtkMRMLLabelMapVolumeNode") eqn:Hc.
      * rewrite (MaurerDistance_runs i o n) by done.
        apply only_image_of_stage.
      * assert (H : (MaurerDistance (Some i) (Some o) showResults w).2 = w).
        { run. unfold node_at in *. run. rewrite Hn.
          cbn [fmap option_fmap option_map from_option]. rewrite Hc.
          reflexivity. }
        rewrite H. apply only_image_of_same.
    + assert (H : (MaurerDistance (Some i) (Some o) showResults w).2 = w).
      { run. unfold node_at in *. run. rewrite Hn. reflexivity. }
      rewrite H. apply only_image_of_same.
Qed.

(** ** The noise-reduction buttons *)

(** One button event: a checked button sets its radius, an unchecked one
    changes nothing. *)
Lemma toggled_runs (b : NoiseButton) (w : World) :
  toggled b w
  = (Return tt,
     {| self := set_medianRadius
                  match b with
                  | buttonLow true => Some 1%Z
                  | buttonHigh true => Some 2%Z
                  | _ => _medianRadius (self w)
                  end (self w);
        app := app w |}).
Proof. destruct b as [[|]|[|]]; reflexivity. Qed.

(** X4.  No sequence of button events switches the median filter off again.
    After any events of the two buttons the world differs from the one
    before in the median radius only; that radius is the one before, 1 or
    2; and if a radius was set before, one is set after. *)
Theorem noise_reduction_stays_on (events : list NoiseButton) (w : World) :
  ∃ r : option Z,
    toggles events w
    = (Return tt, {| self := set_medianRadius r (self w); app := app w |}) ∧
    (r = _medianRadius (self w) ∨ r = Some 1%Z ∨ r = Some 2%Z) ∧
    (_medianRadius (self w) = None ∨ is_Some r).
Proof.
  revert w. induction events as [|b rest IH]; intros w.
  - exists (_medianRadius (self w)).
    split; [reflexivity|]. split; [auto|].
    destruct (_medianRadius (self w)); eauto.
  - cbn [toggles]. unfold mbind, M_bind. rewrite toggled_runs.
    match goal with
    | |- context [toggles rest ?w1] => destruct (IH w1) as (r & Hrun & Hr & Hs)
    end.
    exists r. rewrite Hrun. run. split; [reflexivity|]. split.
    + destruct Hr as [Hr|Hr]; [|auto].
      rewrite Hr. destruct b as [[|]|[|]]; auto.
    + destruct Hs as [Hs|Hs]; [|auto].
      destruct b as [[|]|[|]]; try discriminate Hs; auto.
Qed.

(** ** The threshold preview and the 3D step, when something is missing *)



(** The calls of a 3D step that finds the Threshold effect but not the
    Islands effect. *)
Lemma try_without_islands_effect (w : World) (lo hi : Q) (seg v : NodeId)
  (sid : string) :
  _lastThresholdMin (self w) = Some lo →
  _lastThresholdMax (self w) = Some hi →
  segment_of w = Some (seg, sid) →
  outputSelector (ui (self w)) = Some v →
  "Threshold" ∈ registeredEffects (app w) →
  "Islands" ∉ registeredEffects (app w) →
  applyThresholdShow3D_try w
  = (Raise (RuntimeError "Islands effect is not available"),
     {| self := self w;
        app := set_activeEffect None
                 (set_calls
                    (calls (app w) ++
                     [Call.setSegmentationNode seg;
                      Call.setSourceVolumeNode v;
                      Call.setCurrentSegmentID sid;
                      Call.setActiveEffectByName "Threshold";
                      Call.effect_setParameter "Threshold" "MinimumThreshold"
                        (FormatG lo);
                      Call.effect_setParameter "Threshold" "MaximumThreshold"
                        (FormatG hi);
                      Call.effect_onApply "Threshold";
                      Call.setActiveEffectByName "Islands"])
                    (app w)) |}).
Proof.
  intros Hlo Hhi Hs Hv Ht Hi. unfold applyThresholdShow3D_try. run.
  rewrite Hlo, Hhi. run. rewrite Hs. run. rewrite Hv. run.
  rewrite (bool_decide_eq_true_2 _ Ht). run.
  rewrite (bool_decide_eq_false_2 _ Hi). run.
  rewrite <- ?app_assoc. reflexivity.
Qed.

(** What the 3D step makes of an exception of its [try]. *)
Lemma finalize_after_exception (w w' : World) (e : exn) :
  applyThresholdShow3D_try w = (Raise e, w') →
  onApplyThresholdShow3D w
  = (Return tt,
     logged [Call.errorDisplay
               ("Failed to apply threshold and show 3D model." +:+ LF +:+
                str e)] w').
Proof.
  intros H. unfold onApplyThresholdShow3D, mbind, M_bind, try_except.
  rewrite H. reflexivity.
Qed.

(** X5.  The 3D step is not all-or-nothing.  When the editor offers the
    Threshold effect but not the Islands effect, the threshold is applied to
    the segment first and the step then ends with the error dialog: no
    island is removed, no surface is made, nothing is shown in 3D, and the
    handler returns normally. *)
Theorem finalize_without_islands_effect (w : World) (lo hi : Q)
  (seg v : NodeId) (sid : string) :
  _lastThresholdMin (self w) = Some lo →
  _lastThresholdMax (self w) = Some hi →
  segment_of w = Some (seg, sid) →
  outputSelector (ui (self w)) = Some v →
  "Threshold" ∈ registeredEffects (app w) →
  "Islands" ∉ registeredEffects (app w) →
  onApplyThresholdShow3D w
  = (Return tt,
     {| self := self w;
        app := set_activeEffect None
                 (set_calls
                    (calls (app w) ++
                     [Call.setSegmentationNode seg;
                      Call.setSourceVolumeNode v;
                      Call.setCurrentSegmentID sid;
                      Call.setActiveEffectByName "Threshold";
                      Call.effect_setParameter "Threshold" "MinimumThreshold"
                        (FormatG lo);
                      Call.effect_setParameter "Threshold" "MaximumThreshold"
                        (FormatG hi);
                      Call.effect_onApply "Threshold";
                      Call.setActiveEffectByName "Islands";
                      Call.errorDisplay
                        ("Failed to apply threshold and show 3D model." +:+
                         LF +:+ "Islands effect is not available")])
                    (app w)) |}).
Proof.
  intros Hlo Hhi Hs Hv Ht Hi.
  rewrite (finalize_after_exception _ _ _
             (try_without_islands_effect w lo hi seg v sid
                Hlo Hhi Hs Hv Ht Hi)).
  run. rewrite <- ?app_assoc. reflexivity.
Qed.

Lemma finalize_without_islands_effect_witness :
  (_lastThresholdMin (self (Session.offering ["Threshold"])) = Some 0%Q ∧
   _lastThresholdMax (self (Session.offering ["Threshold"])) = Some 1%Q ∧
   segment_of (Session.offering ["Threshold"]) = Some (3%nat, "Vessels") ∧
   outputSelector (ui (self (Session.offering ["Threshold"]))) = Some 2%nat ∧
   "Threshold" ∈ registeredEffects (app (Session.offering ["Threshold"])) ∧
   "Islands" ∉ registeredEffects (app (Session.offering ["Threshold"]))) ∧
  new_calls onApplyThresholdShow3D (Session.offering ["Threshold"])
  = [Call.setSegmentationNode 3%nat;
     Call.setSourceVolumeNode 2%nat;
     Call.setCurrentSegmentID "Vessels";
     Call.setActiveEffectByName "Threshold";
     Call.effect_setParameter "Threshold" "MinimumThreshold" (FormatG 0);
     Call.effect_setParameter "Threshold" "MaximumThreshold" (FormatG 1);
     Call.effect_onApply "Threshold";
     Call.setActiveEffectByName "Islands";
     Call.errorDisplay
       ("Failed to apply threshold and show 3D model." +:+ LF +:+
        "Islands effect is not available")].
Proof.
  assert (Ht : "Threshold"
               ∈ registeredEffects (app (Session.offering ["Threshold"])))
    by apply list_elem_of_here.
  assert (Hi : "Islands"
               ∉ registeredEffects (app (Session.offering ["Threshold"]))).
  { intros H. apply list_elem_of_singleton in H. discriminate H. }
  split; [repeat split; assumption|].
  unfold new_calls, world_after.
  rewrite (finalize_without_islands_effect (Session.offering ["Threshold"])
             0%Q 1%Q 3%nat 2%nat "Vessels"
             eq_refl eq_refl eq_refl eq_refl Ht Hi).
  reflexivity.
Defined.


(** The preview, stopped at one of its two silent checks or at the missing
    effect. *)
Lemma preview_stops (minimum maximum : Q) (w : World) :
  segment_of w = None ∨ outputSelector (ui (self w)) = None →
  onThresholdValuesChanged minimum maximum w
  = (Return tt,
     {| self := set_lastThreshold (Some minimum) (Some maximum) (self w);
        app := app w |}).
Proof.
  intros H. unfold onThresholdValuesChanged. run.
  change (segment_of _) with (segment_of w).
  destruct (segment_of w) as [[seg sid]|] eqn:Hs; run; [|reflexivity].
  destruct H as [H|H]; [discriminate H|]. rewrite H. reflexivity.
Qed.

Lemma preview_without_threshold_effect (minimum maximum : Q) (w : World)
  (seg v : NodeId) (sid : string) :
  segment_of w = Some (seg, sid) →
  outputSelector (ui (self w)) = Some v →
  "Threshold" ∉ registeredEffects (app w) →
  onThresholdValuesChanged minimum maximum w
  = (Raise (RuntimeError "Threshold effect is not available"),
     {| self := set_lastThreshold (Some minimum) (Some maximum) (self w);
        app := set_activeEffect None
                 (set_calls
                    (calls (app w) ++
                     [Call.setSegmentationNode seg;
                      Call.setSourceVolumeNode v;
                      Call.setCurrentSegmentID sid;
                      Call.setActiveEffectByName "Threshold"])
                    (app w)) |}).
Proof.
  intros Hs Hv Ht. unfold onThresholdValuesChanged. run.
  change (segment_of _) with (segment_of w). rewrite Hs. run.
  rewrite Hv. run. rewrite (bool_decide_eq_false_2 _ Ht). run.
  rewrite <- ?app_assoc. reflexivity.
Qed.

(** X7.  A threshold change is recorded in every case, also when the
    preview fails: afterwards the widget differs in the recorded pair only,
    and the node objects and the scene are as before.  The preview raises
    exactly when a segmentation, a segment id and an output volume are there
    but the editor does not offer the Threshold effect, and then it raises
    the [RuntimeError] that says so. *)
Theorem preview_records_in_every_case (minimum maximum : Q) (w : World) :
  self (world_after (onThresholdValuesChanged minimum maximum) w)
  = set_lastThreshold (Some minimum) (Some maximum) (self w) ∧
  nodes (app (world_after (onThresholdValuesChanged minimum maximum) w))
  = nodes (app w) ∧
  mrmlScene (app (world_after (onThresholdValuesChanged minimum maximum) w))
  = mrmlScene (app w) ∧
  (outcome_of (onThresholdValuesChanged minimum maximum) w = Return tt ∨
   outcome_of (onThresholdValuesChanged minimum maximum) w
   = Raise (RuntimeError "Threshold effect is not available")) ∧
  (outcome_of (onThresholdValuesChanged minimum maximum) w
   = Raise (RuntimeError "Threshold effect is not available")
   ↔ is_Some (segment_of w) ∧
     is_Some (outputSelector (ui (self w))) ∧
     "Threshold" ∉ registeredEffects (app w)).
Proof.
  unfold outcome_of, world_after.
  destruct (segment_of w) as [[seg sid]|] eqn:Hs.
  - destruct (outputSelector (ui (self w))) as [v|] eqn:Hv.
    + destruct (decide ("Threshold" ∈ registeredEffects (app w)))
        as [Ht|Ht].
      * rewrite (preview_runs minimum maximum w seg v sid Hs Hv Ht).
        repeat split; auto; try discriminate.
        intros (_ & _ & H). contradiction.
      * rewrite (preview_without_threshold_effect minimum maximum w
                   seg v sid Hs Hv Ht).
        repeat split; eauto.
    + rewrite preview_stops by auto.
      repeat split; auto; try discriminate.
      intros (_ & [x Hx] & _). discriminate Hx.
  - rewrite preview_stops by auto.
    repeat split; auto; try discriminate.
    intros ([x Hx] & _). discriminate Hx.
Qed.

(** ** Preprocessing and the scene *)

Lemma applySettings_with_frame (w : World) (i o : NodeId) :
  inputSelector (ui (self w)) = Some i →
  outputSelector (ui (self w)) = Some o →
  is_Some (node_at w i) →
  is_Some (node_at w o) →
  scene_in_heap w →
  let w' := world_after applySettings_with w in
  self w' = self w ∧
  (∀ n, is_Some (node_at w n) → is_Some (node_at w' n)) ∧
  scene_in_heap w' ∧
  mrmlScene (app w')
  = (if bool_decide (is_Some (_medianRadius (self w)) ∧
                     saveIntermediateVolume (self w) = true ∧
                     first_named "intermediate_median" w = None)
     then mrmlScene (app w) ++ [fresh (dom (nodes (app w)))]
     else mrmlScene (app w)) ∧
  (∀ n, is_Some (node_at w n) → n ≠ o → ¬ reuses w n →
        node_at w' n = node_at w n) ∧
  (is_Some (_medianRadius (self w)) →
   saveIntermediateVolume (self w) = true →
   is_Some (first_named "intermediate_median" w')).
Proof.
  intros Hi Ho Hni Hn Hscene w'. subst w'.
  unfold world_after, applySettings_with, reuses. run. rewrite Hi, Ho. run.
  on (_medianRadius (self w)).
  - on (saveIntermediateVolume (self w)).
    + match goal with
      | |- context [first_named ?name ?x] =>
          change (first_named name x) with (first_named name w);
          destruct (first_named name w) as [e|] eqn:E
      end; run.
      * pose proof (found_by_name _ _ _ E) as (_ & He & _).
        unfold first_named, node_at, scene_in_heap in *. run.
        split; [reflexivity|].
        split; [intros; eauto using pushed_exists|].
        split; [intros; eauto using pushed_exists|].
        split.
        { rewrite bool_decide_eq_false_2; [reflexivity|].
          intros (_ & _ & H). discriminate H. }
        split.
        { intros n Hn' Hno Hnot.
          assert (e ≠ n) by (intros ->; apply Hnot; eauto).
          by rewrite !lookup_alter_ne. }
        intros _ _. exists e. rewrite <- E. apply find_ext.
        intros x _. by rewrite !name_pushed.
      * unfold first_named, node_at, scene_in_heap in *. run.
        split; [reflexivity|].
        split; [intros; eauto using pushed_exists, added_exists|].
        split.
        { intros n Hin. apply elem_of_app in Hin as [Hin|Hin].
          - eauto using pushed_exists, added_exists.
          - apply list_elem_of_singleton in Hin as ->.
            eauto using pushed_exists, new_node_exists. }
        split.
        { rewrite bool_decide_eq_true_2; [reflexivity|]. eauto. }
        split.
        { intros n Hn' Hno _.
          rewrite !lookup_alter_ne, lookup_insert_ne;
            first [reflexivity | done | by apply fresh_node]. }
        intros _ _. eexists. rewrite find_snoc.
        -- rewrite !name_pushed, lookup_insert_eq.
           cbn [fmap option_fmap option_map new_node GetName].
           rewrite bool_decide_eq_true_2 by reflexivity. reflexivity.
        -- rewrite <- E. apply find_ext. intros x Hx.
           rewrite !name_pushed, lookup_insert_ne; [reflexivity|].
           apply fresh_node. by apply Hscene.
    + unfold first_named, node_at, scene_in_heap in *. run.
      assert (Hlast : filter (λ m, m ≠ fresh (dom (nodes (app w))))
                        (mrmlScene (app w) ++ [fresh (dom (nodes (app w)))])
                      = mrmlScene (app w)).
      { apply filter_out_last. intros Hin. apply Hscene in Hin.
        by apply (fresh_node _ _ Hin). }
      run. rewrite Hlast.
      split; [reflexivity|].
      split; [intros; eauto using pushed_exists, added_exists|].
      split; [intros; eauto using pushed_exists, added_exists|].
      split.
      { rewrite bool_decide_eq_false_2; [reflexivity|].
        intros (_ & H & _). discriminate H. }
      split.
      { intros n Hn' Hno _.
        rewrite !lookup_alter_ne, lookup_insert_ne;
          first [reflexivity | done | by apply fresh_node]. }
      intros _ H. discriminate H.
  - unfold first_named, node_at, scene_in_heap in *. run.
    split; [reflexivity|].
    split; [intros; eauto using pushed_exists|].
    split; [intros; eauto using pushed_exists|].
    split.
    { rewrite bool_decide_eq_false_2; [reflexivity|].
      intros ([x Hx] & _). discriminate Hx. }
    split.
    { intros n Hn' Hno _. by rewrite !lookup_alter_ne. }
    intros [x Hx]. discriminate Hx.
Qed.

(** The same for the handler: the wait cursor adds to the call log only. *)
Lemma onApplySettings_frame (w : World) (i o : NodeId) :
  inputSelector (ui (self w)) = Some i →
  outputSelector (ui (self w)) = Some o →
  is_Some (node_at w i) →
  is_Some (node_at w o) →
  scene_in_heap w →
  let w' := world_after onApplySettings w in
  self w' = self w ∧
  (∀ n, is_Some (node_at w n) → is_Some (node_at w' n)) ∧
  scene_in_heap w' ∧
  mrmlScene (app w')
  = (if bool_decide (is_Some (_medianRadius (self w)) ∧
                     saveIntermediateVolume (self w) = true ∧
                     first_named "intermediate_median" w = None)
     then mrmlScene (app w) ++ [fresh (dom (nodes (app w)))]
     else mrmlScene (app w)) ∧
  (∀ n, is_Some (node_at w n) → n ≠ o → ¬ reuses w n →
        node_at w' n = node_at w n) ∧
  (is_Some (_medianRadius (self w)) →
   saveIntermediateVolume (self w) = true →
   is_Some (first_named "intermediate_median" w')).
Proof.
  intros Hi Ho Hni Hn Hscene w'. subst w'.
  rewrite (onApplySettings_world w i o Hi Ho Hni Hn).
  exact (applySettings_with_frame (logged [Call.setOverrideCursor] w)
           i o Hi Ho Hni Hn Hscene).
Qed.

(** X8.  A preprocessing run leaves the widget attributes as they are and
    adds at most one node to the scene: the intermediate node, at the end,
    and only when a radius is set, the save-intermediate box is checked and
    no node of the scene is named "intermediate_median".  In particular the
    temporary node of a run without the box is gone afterwards. *)
Theorem onApplySettings_adds_at_most_one_node (w : World) (i o : NodeId) :
  inputSelector (ui (self w)) = Some i →
  outputSelector (ui (self w)) = Some o →
  is_Some (node_at w i) →
  is_Some (node_at w o) →
  scene_in_heap w →
  self (world_after onApplySettings w) = self w ∧
  mrmlScene (app (world_after onApplySettings w))
  = (if bool_decide (is_Some (_medianRadius (self w)) ∧
                     saveIntermediateVolume (self w) = true ∧
                     first_named "intermediate_median" w = None)
     then mrmlScene (app w) ++ [fresh (dom (nodes (app w)))]
     else mrmlScene (app w)).
Proof.
  intros Hi Ho Hni Hn Hscene.
  destruct (onApplySettings_frame w i o Hi Ho Hni Hn Hscene)
    as (Hself & _ & _ & Hs & _).
  split; assumption.
Qed.

(** X9.  Pressing Apply again does not pile up nodes: whatever the radius
    and the box, a second run right after a first leaves the scene with the
    nodes the first run left. *)
Theorem onApplySettings_again_adds_no_node (w : World) (i o : NodeId) :
  inputSelector (ui (self w)) = Some i →
  outputSelector (ui (self w)) = Some o →
  is_Some (node_at w i) →
  is_Some (node_at w o) →
  scene_in_heap w →
  mrmlScene (app (world_after onApplySettings
                    (world_after onApplySettings w)))
  = mrmlScene (app (world_after onApplySettings w)).
Proof.
  intros Hi Ho Hni Hn Hscene.
  destruct (onApplySettings_frame w i o Hi Ho Hni Hn Hscene)
    as (Hself & Hkeep & Hscene1 & _ & _ & Hnamed).
  set (w1 := world_after onApplySettings w) in *.
  assert (Hi1 : inputSelector (ui (self w1)) = Some i) by by rewrite Hself.
  assert (Ho1 : outputSelector (ui (self w1)) = Some o) by by rewrite Hself.
  destruct (onApplySettings_frame w1 i o Hi1 Ho1 (Hkeep _ Hni) (Hkeep _ Hn)
              Hscene1) as (_ & _ & _ & Hs & _).
  rewrite Hs. rewrite bool_decide_eq_false_2; [reflexivity|].
  intros (Hr & Hsave & Hnone). rewrite Hself in Hr, Hsave.
  destruct (Hnamed Hr Hsave) as [m Hm]. congruence.
Qed.


(** The scene of the sample session holds node objects only. *)
Lemma loaded_scene_in_heap (radius : Z) (save : bool) :
  scene_in_heap (Sample.with_median radius save Sample.loaded).
Proof.
  intros n Hin.
  repeat (apply elem_of_cons in Hin as [->|Hin]; [vm_compute; eauto|]).
  by apply elem_of_nil in Hin.
Qed.

Lemma loaded_nodes_exist (radius : Z) (save : bool) :
  is_Some (node_at (Sample.with_median radius save Sample.loaded) 1%nat) ∧
  is_Some (node_at (Sample.with_median radius save Sample.loaded) 2%nat).
Proof. split; vm_compute; eauto. Qed.

Lemma onApplySettings_adds_at_most_one_node_witness :
  (inputSelector (ui (self (Sample.with_median 2 true Sample.loaded)))
   = Some 1%nat ∧
   outputSelector (ui (self (Sample.with_median 2 true Sample.loaded)))
   = Some 2%nat ∧
   is_Some (node_at (Sample.with_median 2 true Sample.loaded) 1%nat) ∧
   is_Some (node_at (Sample.with_median 2 true Sample.loaded) 2%nat) ∧
   scene_in_heap (Sample.with_median 2 true Sample.loaded)) ∧
  self (world_after onApplySettings (Sample.with_median 2 true Sample.loaded))
  = self (Sample.with_median 2 true Sample.loaded) ∧
  mrmlScene (app (world_after onApplySettings
                    (Sample.with_median 2 true Sample.loaded)))
  = [1; 2; 3]%nat.
Proof.
  destruct (loaded_nodes_exist 2 true) as [H1 H2].
  pose proof (loaded_scene_in_heap 2 true) as H3.
  split; [repeat split; assumption|].
  exact (onApplySettings_adds_at_most_one_node
           (Sample.with_median 2 true Sample.loaded) 1%nat 2%nat
           eq_refl eq_refl H1 H2 H3).
Defined.

Lemma onApplySettings_again_adds_no_node_witness :
  (inputSelector (ui (self (Sample.with_median 2 true Sample.loaded)))
   = Some 1%nat ∧
   outputSelector (ui (self (Sample.with_median 2 true Sample.loaded)))
   = Some 2%nat ∧
   is_Some (node_at (Sample.with_median 2 true Sample.loaded) 1%nat) ∧
   is_Some (node_at (Sample.with_median 2 true Sample.loaded) 2%nat) ∧
   scene_in_heap (Sample.with_median 2 true Sample.loaded)) ∧
  mrmlScene (app (world_after onApplySettings
                    (world_after onApplySettings
                       (Sample.with_median 2 true Sample.loaded))))
  = mrmlScene (app (world_after onApplySettings
                      (Sample.with_median 2 true Sample.loaded))).
Proof.
  destruct (loaded_nodes_exist 2 true) as [H1 H2].
  pose proof (loaded_scene_in_heap 2 true) as H3.
  split; [repeat split; assumption|].
  exact (onApplySettings_again_adds_no_node
           (Sample.with_median 2 true Sample.loaded) 1%nat 2%nat
           eq_refl eq_refl H1 H2 H3).
Defined.


(** X11.  Where the intermediate volume is kept as intended: in a run with a
    median radius and the save-intermediate box checked, unless the output
    volume is itself the first node named "intermediate_median", the scene
    has a node of that name after the run and it holds the median-filtered
    input. *)
Theorem onApplySettings_saves_median_volume (w : World) (i o : NodeId)
  (r : Z) :
  inputSelector (ui (self w)) = Some i →
  outputSelector (ui (self w)) = Some o →
  is_Some (node_at w i) →
  is_Some (node_at w o) →
  scene_in_heap w →
  _medianRadius (self w) = Some r →
  saveIntermediateVolume (self w) = true →
  first_named "intermediate_median" w ≠ Some o →
  ∃ m,
    first_named "intermediate_median" (world_after onApplySettings w)
    = Some m ∧
    image_at (world_after onApplySettings w) m
    = sitk.Execute (median_of r) (image_at w i).
Proof.
  intros Hi Ho Hni Hn Hscene Hr Hsave Hne.
  rewrite (onApplySettings_world w i o Hi Ho Hni Hn).
  pose proof (applySettings_with_intermediate
                (logged [Call.setOverrideCursor] w) i o r
                Hi Ho Hni Hn Hscene Hr) as H.
  cbv zeta in H.
  change (saveIntermediateVolume (self (logged [Call.setOverrideCursor] w)))
    with (saveIntermediateVolume (self w)) in H.
  rewrite Hsave in H. exact (H Hne).
Qed.

Lemma onApplySettings_saves_median_volume_witness :
  (inputSelector (ui (self (Sample.with_median 2 true Sample.loaded)))
   = Some 1%nat ∧
   outputSelector (ui (self (Sample.with_median 2 true Sample.loaded)))
   = Some 2%nat ∧
   is_Some (node_at (Sample.with_median 2 true Sample.loaded) 1%nat) ∧
   is_Some (node_at (Sample.with_median 2 true Sample.loaded) 2%nat) ∧
   scene_in_heap (Sample.with_median 2 true Sample.loaded) ∧
   _medianRadius (self (Sample.with_median 2 true Sample.loaded))
   = Some 2%Z ∧
   saveIntermediateVolume (self (Sample.with_median 2 true Sample.loaded))
   = true ∧
   first_named "intermediate_median"
     (Sample.with_median 2 true Sample.loaded) ≠ Some 2%nat) ∧
  ∃ m,
    first_named "intermediate_median"
      (world_after onApplySettings (Sample.with_median 2 true Sample.loaded))
    = Some m ∧
    image_at (world_after onApplySettings
                (Sample.with_median 2 true Sample.loaded)) m
    = sitk.Execute (median_of 2) Sample.CT.
Proof.
  destruct (loaded_nodes_exist 2 true) as [H1 H2].
  pose proof (loaded_scene_in_heap 2 true) as H3.
  assert (H4 : first_named "intermediate_median"
                 (Sample.with_median 2 true Sample.loaded) ≠ Some 2%nat)
    by (vm_compute; discriminate).
  split; [repeat split; try assumption; reflexivity|].
  exact (onApplySettings_saves_median_volume
           (Sample.with_median 2 true Sample.loaded) 1%nat 2%nat 2%Z
           eq_refl eq_refl H1 H2 H3 eq_refl eq_refl H4).
Defined.

(** ** The distance map button and the scene *)


Lemma tryWithErrorDisplay_raises {A : Type} (message : string) (body : M A)
  (w w' : World) (e : exn) :
  body (logged [Call.setOverrideCursor] w) = (Raise e, w') →
  slicer.tryWithErrorDisplay message body w
  = (Raise e,
     logged [Call.restoreOverrideCursor;
             Call.errorDisplay (message +:+ LF +:+ LF +:+ str e)] w').
Proof. intros H. run. rewrite H. run. rewrite <- app_assoc. reflexivity. Qed.







(** X14.  Unless a segmentation node with at least one segment and an
    output volume are selected, the distance map button raises
    [ValueError] or [TypeError], shows it in a dialog under "Failed to
    compute Maurer Distance." and leaves everything else as it was: no node
    is added, nothing is exported and no filter is run. *)
Lemma onComputeMaurerDistance_rejects (w : World) :
  (∀ seg n ref,
     inputSelectorSegmentation (ui (self w)) = Some seg →
     node_at w seg = Some n →
     GetClass n = vtkMRMLSegmentationNode →
     outputSelector (ui (self w)) = Some ref →
     GetSegmentIDs n = []) →
  ∃ e : exn,
    (∃ msg, e = ValueError msg ∨ e = TypeError msg) ∧
    onComputeMaurerDistance w
    = (Raise e,
       logged [Call.setOverrideCursor; Call.restoreOverrideCursor;
               Call.errorDisplay
                 ("Failed to compute Maurer Distance." +:+ LF +:+ LF +:+
                  str e)] w).
Proof.
  intros H.
  assert (Hbody : ∃ e, (∃ msg, e = ValueError msg ∨ e = TypeError msg) ∧
            computeMaurerDistance_with (logged [Call.setOverrideCursor] w)
            = (Raise e, logged [Call.setOverrideCursor] w)).
  { unfold computeMaurerDistance_with. unfold node_at in *. run.
    on (inputSelectorSegmentation (ui (self w))); [|eauto 6].
    unfold node_at. run.
    match goal with
    | |- context [nodes (app w) !! ?k] =>
        destruct (nodes (app w) !! k) as [node|] eqn:En
    end; cbn [from_option]; [|cbn [negb]; eauto 6].
    destruct (IsA (GetClass node) "vtkMRMLSegmentationNode") eqn:Ec;
      cbn [negb]; [|eauto 6].
    apply IsA_segmentation in Ec.
    on (outputSelector (ui (self w))); [|eauto 6].
    rewrite (H _ _ _ eq_refl En Ec eq_refl).
    cbn [length Nat.ltb Nat.leb]. eauto 6. }
  destruct Hbody as (e & He & Hbody). exists e. split; [exact He|].
  unfold onComputeMaurerDistance.
  rewrite (tryWithErrorDisplay_raises _ _ _ _ _ Hbody).
  run. rewrite <- app_assoc. reflexivity.
Qed.

(** ** The Apply button without a selection *)

(** X15.  Without an input or without an output volume the Apply button
    raises [ValueError "No volumes selected!"], shows it in a dialog under
    "Failed to apply settings." and leaves everything else as it was: no
    filter is run and no node is added. *)
Lemma onApplySettings_without_volumes (w : World) :
  inputSelector (ui (self w)) = None ∨ outputSelector (ui (self w)) = None →
  onApplySettings w
  = (Raise (ValueError "No volumes selected!"),
     logged [Call.setOverrideCursor; Call.restoreOverrideCursor;
             Call.errorDisplay
               ("Failed to apply settings." +:+ LF +:+ LF +:+
                "No volumes selected!")] w).
Proof.
  intros H.
  assert (Hbody : applySettings_with (logged [Call.setOverrideCursor] w)
                  = (Raise (ValueError "No volumes selected!"),
                     logged [Call.setOverrideCursor] w)).
  { unfold applySettings_with. run.
    destruct H as [H|H]; rewrite H; [reflexivity|].
    on (inputSelector (ui (self w))); reflexivity. }
  unfold onApplySettings.
  rewrite (tryWithErrorDisplay_raises _ _ _ _ _ Hbody).
  run. rewrite <- app_assoc. reflexivity.
Qed.


Lemma without_colours_scene_in_heap : scene_in_heap Session.without_colours.
Proof.
  intros n Hin.
  repeat (apply elem_of_cons in Hin as [->|Hin]; [vm_compute; eauto|]).
  by apply elem_of_nil in Hin.
Qed.




Lemma onComputeMaurerDistance_rejects_witness :
  inputSelectorSegmentation (ui (self Sample.loaded)) = None ∧
  ∃ e : exn,
    (∃ msg, e = ValueError msg ∨ e = TypeError msg) ∧
    onComputeMaurerDistance Sample.loaded
    = (Raise e,
       logged [Call.setOverrideCursor; Call.restoreOverrideCursor;
               Call.errorDisplay
                 ("Failed to compute Maurer Distance." +:+ LF +:+ LF +:+
                  str e)] Sample.loaded).
Proof.
  split; [reflexivity|].
  apply (onComputeMaurerDistance_rejects Sample.loaded).
  intros seg n ref H. discriminate H.
Defined.

Lemma onApplySettings_without_volumes_witness :
  inputSelector (ui (self Sample.startup)) = None ∧
  onApplySettings Sample.startup
  = (Raise (ValueError "No volumes selected!"),
     logged [Call.setOverrideCursor; Call.restoreOverrideCursor;
             Call.errorDisplay
               ("Failed to apply settings." +:+ LF +:+ LF +:+
                "No volumes selected!")] Sample.startup).
Proof.
  split; [reflexivity|].
  apply (onApplySettings_without_volumes Sample.startup).
  left. reflexivity.
Defined.
